(** * goreplay, package [tcp]: [tcp_packet.go]

    A shallow embedding of [ParsePacket] and of the accessors of [*Packet]
    ([Version], [IHL], [Length], [SrcIP], [DestIP], [SYNOptions], [Flag]),
    followed by the properties of the packet record that the specification
    states.

    Conventions.
    - Go's fixed-width unsigned integers are values of [Z]; every operation
      that can wrap around in Go is followed by the matching reduction
      ([Go.uint8], [Go.uint16], [Go.uint32], [Go.int]).
    - A Go run-time panic (nil dereference, index out of range, failed type
      assertion) is the [Panics] outcome of the [outcome] monad.
    - An interface value or a pointer that may be nil is an [option]. *)

From Stdlib Require Import ZArith List Bool Lia.
From Stdlib Require Import Strings.String Strings.Ascii Strings.Byte.
Import ListNotations.

Local Open Scope Z_scope.

(* ================================================================== *)
(** ** Go: machine integers, panics, slices *)

Module Go.

(** Conversions to the unsigned types keep the low bits. *)
Definition uint8 (z : Z) : Z := z mod 2 ^ 8.
Definition uint16 (z : Z) : Z := z mod 2 ^ 16.
Definition uint32 (z : Z) : Z := z mod 2 ^ 32.

(** [int] is the signed machine word (64 bits on the usual targets). *)
Definition int (z : Z) : Z := (z + 2 ^ 63) mod 2 ^ 64 - 2 ^ 63.

(** The numeric value of a byte of a slice. *)
Definition byte_val (b : byte) : Z := Z.of_N (Byte.to_N b).

(** [len(s)], as a number. *)
Definition len {A : Type} (s : list A) : Z := Z.of_nat (List.length s).

Variant panic : Type :=
| NilDereference      (* invalid memory address or nil pointer dereference *)
| IndexOutOfRange     (* index out of range *)
| InterfaceConversion (* x.(T) without the ok result, on another type *).

Variant outcome (A : Type) : Type :=
| Returns (a : A)
| Panics (p : panic).
Arguments Returns {A} a.
Arguments Panics {A} p.

Definition bind {A B : Type} (m : outcome A) (k : A -> outcome B) : outcome B :=
  match m with
  | Returns a => k a
  | Panics p => Panics p
  end.

(** [*p] for a pointer that may be nil. *)
Definition deref {A : Type} (p : option A) : outcome A :=
  match p with
  | Some a => Returns a
  | None => Panics NilDereference
  end.

(** [s[i]] with its bounds check. *)
Definition index {A : Type} (s : list A) (i : nat) : outcome A :=
  match nth_error s i with
  | Some a => Returns a
  | None => Panics IndexOutOfRange
  end.

(** [s[:n]] on a string, for [n <= len(s)]. *)
Definition slice_to (s : string) (n : nat) : string := substring 0 n s.

End Go.

Import Go.

Notation "x <- m ;; k" := (Go.bind m (fun x => k))
  (at level 61, m at next level, right associativity).

(** [time.Time], as an instant counted from the zero value [time.Time{}]. *)
Module time.
Definition Time : Type := Z.
Definition zero : Time := 0.
Definition Equal (t u : Time) : bool := t =? u.
End time.

(** [binary.BigEndian.Uint16], from [encoding/binary] of Go's standard
    library:
<<
   func (bigEndian) Uint16(b []byte) uint16 {
       _ = b[1] // bounds check hint to compiler
       return uint16(b[1]) | uint16(b[0])<<8
   }
>> *)
Module binary.
Definition BigEndian_Uint16 (b : list byte) : outcome Z :=
  _ <- index b 1 ;;
  b1 <- index b 1 ;;
  b0 <- index b 0 ;;
  Returns (Z.lor (uint16 (byte_val b1)) (uint16 (Z.shiftl (uint16 (byte_val b0)) 8))).
End binary.

(* ================================================================== *)
(** ** gopacket: the decoded layers the package reads *)

Definition error : Type := string.

(** Modelled from the spec: the header fields of its data model, as the
    external decoder hands them over (package [layers] of gopacket, which is
    not part of the repository), under the names [tcp_packet.go] reads them
    by. [IHL], [DataOffset], [OptionType] and [OptionLength] are [uint8],
    [Length] is [uint16]. The decoder fills [IHL] and [DataOffset] from a
    4-bit header field, in 32-bit words. *)
Module layers.

Definition TCPOptionKind : Type := Z.
Definition TCPOptionKindMSS : TCPOptionKind := 2.
Definition TCPOptionKindWindowScale : TCPOptionKind := 3.

Record TCPOption : Type := {
  OptionType : TCPOptionKind;
  OptionLength : Z;
  OptionData : list byte
}.

Record TCP : Type := {
  SrcPort : Z;
  DstPort : Z;
  Seq : Z;
  Ack : Z;
  DataOffset : Z;
  FIN : bool;
  SYN : bool;
  RST : bool;
  PSH : bool;
  ACK : bool;
  URG : bool;
  Window : Z;
  Options : list TCPOption;
  Payload : list byte  (* BaseLayer.Payload: the bytes after the TCP header *)
}.

Record IPv4 : Type := {
  IPv4_IHL : Z;
  IPv4_Length : Z;
  IPv4_SrcIP : list byte;
  IPv4_DstIP : list byte
}.

Record IPv6 : Type := {
  IPv6_Length : Z;
  IPv6_SrcIP : list byte;
  IPv6_DstIP : list byte
}.

(** [pckt.DataOffset *= 4] on a [uint8] field. *)
Definition DataOffset_times_4 (t : TCP) : TCP :=
  {| SrcPort := SrcPort t; DstPort := DstPort t; Seq := Seq t; Ack := Ack t;
     DataOffset := uint8 (DataOffset t * 4);
     FIN := FIN t; SYN := SYN t; RST := RST t; PSH := PSH t; ACK := ACK t;
     URG := URG t; Window := Window t; Options := Options t;
     Payload := Payload t |}.

End layers.

(** Modelled from the spec: what the core consumes from the layer decoder
    (package [gopacket], which is not part of the repository): the layer
    interfaces, by the dynamic type of the value they hold, the error layer
    and the decoded packet. *)
Module gopacket.

Definition LinkLayer : Type := list byte.

Variant NetworkLayer : Type :=
| IPv4 (l : layers.IPv4)
| IPv6 (l : layers.IPv6)
| OtherNetwork (contents : list byte).

Variant TransportLayer : Type :=
| TCP (t : layers.TCP)
| OtherTransport (contents : list byte).

Definition ApplicationLayer : Type := list byte.

Variant ErrorLayer : Type :=
| DecodeFailure (err : error)
| OtherErrorLayer (err : error).

(** The [Error()] method of either shape of error layer. *)
Definition Error (e : ErrorLayer) : error :=
  match e with
  | DecodeFailure err => err
  | OtherErrorLayer err => err
  end.

(** What a [gopacket.Packet] answers to the calls [ParsePacket] makes.
    A nil interface value is [None]. *)
Module Packet.
Record t : Type := {
  ErrorLayer : option ErrorLayer;
  Metadata_Timestamp : time.Time;
  LinkLayer : option LinkLayer;
  NetworkLayer : option NetworkLayer;
  TransportLayer : option TransportLayer;
  ApplicationLayer : option ApplicationLayer
}.
End Packet.

End gopacket.

(* ================================================================== *)
(** ** Package tcp *)

Module tcp.

(** [type Packet struct]. The embedded [*layers.TCP] is a pointer, nil
    until [ParsePacket] sets it; its fields are reached through it. *)
Record Packet : Type := {
  LinkLayer : option gopacket.LinkLayer;
  NetworkLayer : option gopacket.NetworkLayer;
  TCP : option layers.TCP;
  DataLayer : option gopacket.ApplicationLayer;
  Lost : Z;
  Timestamp : time.Time
}.

(** [new(Packet)]: the zero value. *)
Definition new_Packet : Packet :=
  {| LinkLayer := None; NetworkLayer := None; TCP := None;
     DataLayer := None; Lost := 0; Timestamp := time.zero |}.

Definition set_Timestamp (pckt : Packet) (ts : time.Time) : Packet :=
  {| LinkLayer := LinkLayer pckt; NetworkLayer := NetworkLayer pckt;
     TCP := TCP pckt; DataLayer := DataLayer pckt; Lost := Lost pckt;
     Timestamp := ts |}.

Definition set_LinkLayer (pckt : Packet) (l : option gopacket.LinkLayer) : Packet :=
  {| LinkLayer := l; NetworkLayer := NetworkLayer pckt;
     TCP := TCP pckt; DataLayer := DataLayer pckt; Lost := Lost pckt;
     Timestamp := Timestamp pckt |}.

Definition set_NetworkLayer (pckt : Packet) (n : option gopacket.NetworkLayer) : Packet :=
  {| LinkLayer := LinkLayer pckt; NetworkLayer := n;
     TCP := TCP pckt; DataLayer := DataLayer pckt; Lost := Lost pckt;
     Timestamp := Timestamp pckt |}.

Definition set_TCP (pckt : Packet) (t : option layers.TCP) : Packet :=
  {| LinkLayer := LinkLayer pckt; NetworkLayer := NetworkLayer pckt;
     TCP := t; DataLayer := DataLayer pckt; Lost := Lost pckt;
     Timestamp := Timestamp pckt |}.

Definition set_DataLayer (pckt : Packet) (d : option gopacket.ApplicationLayer) : Packet :=
  {| LinkLayer := LinkLayer pckt; NetworkLayer := NetworkLayer pckt;
     TCP := TCP pckt; DataLayer := d; Lost := Lost pckt;
     Timestamp := Timestamp pckt |}.

Definition set_Lost (pckt : Packet) (l : Z) : Packet :=
  {| LinkLayer := LinkLayer pckt; NetworkLayer := NetworkLayer pckt;
     TCP := TCP pckt; DataLayer := DataLayer pckt; Lost := l;
     Timestamp := Timestamp pckt |}.

(** [func (pckt *Packet) Version() uint8] *)
Definition Version (pckt : Packet) : Z :=
  match NetworkLayer pckt with
  | Some (gopacket.IPv4 _) => 4
  | _ => 6
  end.

(** [func (pckt *Packet) IHL() uint8] *)
Definition IHL (pckt : Packet) : Z :=
  match NetworkLayer pckt with
  | Some (gopacket.IPv4 l) => uint8 (layers.IPv4_IHL l * 4)
  | _ => 40
  end.

(** [func (pckt *Packet) Length() uint16]: the second type assertion has
    no [ok] result and panics on anything but [*layers.IPv6]. *)
Definition Length (pckt : Packet) : outcome Z :=
  match NetworkLayer pckt with
  | Some (gopacket.IPv4 l) => Returns (layers.IPv4_Length l)
  | Some (gopacket.IPv6 l) => Returns (layers.IPv6_Length l)
  | _ => Panics InterfaceConversion
  end.

(** [func (pckt *Packet) SrcIP() net.IP] *)
Definition SrcIP (pckt : Packet) : outcome (list byte) :=
  if Version pckt =? 4 then
    match NetworkLayer pckt with
    | Some (gopacket.IPv4 l) => Returns (layers.IPv4_SrcIP l)
    | _ => Panics InterfaceConversion
    end
  else
    match NetworkLayer pckt with
    | Some (gopacket.IPv6 l) => Returns (layers.IPv6_SrcIP l)
    | _ => Panics InterfaceConversion
    end.

(** [func (pckt *Packet) DestIP() net.IP] *)
Definition DestIP (pckt : Packet) : outcome (list byte) :=
  if Version pckt =? 4 then
    match NetworkLayer pckt with
    | Some (gopacket.IPv4 l) => Returns (layers.IPv4_DstIP l)
    | _ => Panics InterfaceConversion
    end
  else
    match NetworkLayer pckt with
    | Some (gopacket.IPv6 l) => Returns (layers.IPv6_DstIP l)
    | _ => Panics InterfaceConversion
    end.

(** The frame once its TCP layer has been written: [pckt.TCP] is the
    pointer the frame holds, so a write through it changes the layer for
    both. *)
Definition write_TCP (packet : gopacket.Packet.t) (t : layers.TCP)
  : gopacket.Packet.t :=
  {| gopacket.Packet.ErrorLayer := gopacket.Packet.ErrorLayer packet;
     gopacket.Packet.Metadata_Timestamp := gopacket.Packet.Metadata_Timestamp packet;
     gopacket.Packet.LinkLayer := gopacket.Packet.LinkLayer packet;
     gopacket.Packet.NetworkLayer := gopacket.Packet.NetworkLayer packet;
     gopacket.Packet.TransportLayer := Some (gopacket.TCP t);
     gopacket.Packet.ApplicationLayer := gopacket.Packet.ApplicationLayer packet |}.

(** The body of [ParsePacket], up to each of its [return]s: the frame as
    the body leaves it, and the record. [now] is what [time.Now()]
    answers. *)
Definition ParsePacket_body (now : time.Time) (packet : gopacket.Packet.t)
  : outcome (gopacket.Packet.t * Packet) :=
  (* initialization *)
  let pckt := new_Packet in
  let pckt := set_Timestamp pckt (gopacket.Packet.Metadata_Timestamp packet) in
  let pckt :=
    if time.Equal (Timestamp pckt) time.zero then set_Timestamp pckt now else pckt in
  (* parsing link layer *)
  let pckt := set_LinkLayer pckt (gopacket.Packet.LinkLayer packet) in
  (* parsing network layer *)
  let after_network (pckt : Packet) : outcome (gopacket.Packet.t * Packet) :=
    (* parsing tcp header(transportation layer) *)
    match gopacket.Packet.TransportLayer packet with
    | Some (gopacket.TCP tcp) =>
        let pckt := set_TCP pckt (Some tcp) in
        t <- deref (TCP pckt) ;;
        let t := layers.DataOffset_times_4 t in
        let pckt := set_TCP pckt (Some t) in
        let packet := write_TCP packet t in
        (* parsing application later(actual data) *)
        let pckt := set_DataLayer pckt (gopacket.Packet.ApplicationLayer packet) in
        (* calculating lost data *)
        t <- deref (TCP pckt) ;;
        let headerSize :=
          int (uint32 (uint32 (layers.DataOffset t) + uint32 (IHL pckt))) in
        let headerSize :=
          if Version pckt =? 6 then int (layers.DataOffset t) else headerSize in
        length <- Length pckt ;;
        Returns (packet,
                 set_Lost pckt
                   (uint16 (length - uint16 (int (headerSize + len (layers.Payload t))))))
    | _ => Returns (packet, pckt)
    end in
  match gopacket.Packet.NetworkLayer packet with
  | Some (gopacket.IPv4 net4) =>
      after_network (set_NetworkLayer pckt (Some (gopacket.IPv4 net4)))
  | Some (gopacket.IPv6 net6) =>
      after_network (set_NetworkLayer pckt (Some (gopacket.IPv6 net6)))
  | _ => Returns (packet, pckt)
  end.

(** The deferred closure of [ParsePacket]: it runs when the body has
    returned and overwrites the named result [err]. *)
Definition ParsePacket_deferred (packet : gopacket.Packet.t) (err : option error)
  : option error :=
  match gopacket.Packet.ErrorLayer packet with
  | Some e =>
      match e with
      | gopacket.DecodeFailure _ => Some (gopacket.Error e)
      | _ => Some (gopacket.Error e)
      end
  | None => err
  end.

(** [func ParsePacket(packet gopacket.Packet) (pckt *Packet, err error)]:
    the two results. *)
Definition ParsePacket (now : time.Time) (packet : gopacket.Packet.t)
  : outcome (Packet * option error) :=
  r <- ParsePacket_body now packet ;;
  Returns (snd r, ParsePacket_deferred (fst r) None).

(** The frame as a call of [ParsePacket] leaves it. *)
Definition ParsePacket_frame (now : time.Time) (packet : gopacket.Packet.t)
  : outcome gopacket.Packet.t :=
  r <- ParsePacket_body now packet ;;
  Returns (fst r).

(** One iteration of the loop of [SYNOptions] over the named results. *)
Definition SYNOptions_iter (acc : Z * Z) (v : layers.TCPOption) : outcome (Z * Z) :=
  let '(mss, windowscale) := acc in
  if layers.OptionType v =? layers.TCPOptionKindMSS then
    mss <- binary.BigEndian_Uint16 (layers.OptionData v) ;;
    Returns (mss, windowscale)
  else if layers.OptionType v =? layers.TCPOptionKindWindowScale then
    if 0 <? layers.OptionLength v then
      n <- index (layers.OptionData v) 0 ;;
      Returns (mss, uint16 (Z.shiftl 1 (byte_val n))) (* 2 ** windowscale *)
    else Returns (mss, windowscale)
  else Returns (mss, windowscale).

(** [for _, v := range pckt.Options] *)
Fixpoint SYNOptions_range (options : list layers.TCPOption) (acc : Z * Z)
  : outcome (Z * Z) :=
  match options with
  | [] => Returns acc
  | v :: rest => acc' <- SYNOptions_iter acc v ;; SYNOptions_range rest acc'
  end.

(** [func (pckt *Packet) SYNOptions() (mss, windowscale uint16)] *)
Definition SYNOptions (pckt : Packet) : outcome (Z * Z) :=
  t <- deref (TCP pckt) ;;
  if negb (layers.SYN t) then Returns (0, 0)
  else SYNOptions_range (layers.Options t) (0, 0).

(** [func (pckt *Packet) Flag() (flag string)] *)
Definition Flag (pckt : Packet) : outcome string :=
  t <- deref (TCP pckt) ;;
  let flag := EmptyString in
  let flag := if layers.FIN t then (flag ++ "FIN, ")%string else flag in
  let flag := if layers.SYN t then (flag ++ "SYN, ")%string else flag in
  let flag := if layers.RST t then (flag ++ "RST, ")%string else flag in
  let flag := if layers.PSH t then (flag ++ "PSH, ")%string else flag in
  let flag := if layers.ACK t then (flag ++ "ACK, ")%string else flag in
  let flag := if layers.URG t then (flag ++ "URG, ")%string else flag in
  if negb (Nat.eqb (String.length flag) 0)
  then Returns (slice_to flag (String.length flag - 2)%nat)
  else Returns flag.

End tcp.


(* ================================================================== *)
(** ** The specification's vocabulary *)

Module spec.

(** The shapes [ParsePacket] accepts (steps 3 and 4 of the construction). *)
Definition is_IP (n : option gopacket.NetworkLayer) : bool :=
  match n with
  | Some (gopacket.IPv4 _) | Some (gopacket.IPv6 _) => true
  | _ => false
  end.

Definition is_TCP (t : option gopacket.TransportLayer) : bool :=
  match t with
  | Some (gopacket.TCP _) => true
  | _ => false
  end.

Definition recognised (packet : gopacket.Packet.t) : bool :=
  is_IP (gopacket.Packet.NetworkLayer packet)
  && is_TCP (gopacket.Packet.TransportLayer packet).

(** The timestamp of step 2: the decoder's, or the processing instant. *)
Definition timestamp (now : time.Time) (packet : gopacket.Packet.t) : time.Time :=
  if gopacket.Packet.Metadata_Timestamp packet =? 0 then now
  else gopacket.Packet.Metadata_Timestamp packet.

(** The error result: the error of the frame's error layer, if it has one. *)
Definition reported_error (packet : gopacket.Packet.t) : option error :=
  option_map gopacket.Error (gopacket.Packet.ErrorLayer packet).

(** The same frame with no error layer. *)
Definition without_error (packet : gopacket.Packet.t) : gopacket.Packet.t :=
  {| gopacket.Packet.ErrorLayer := None;
     gopacket.Packet.Metadata_Timestamp := gopacket.Packet.Metadata_Timestamp packet;
     gopacket.Packet.LinkLayer := gopacket.Packet.LinkLayer packet;
     gopacket.Packet.NetworkLayer := gopacket.Packet.NetworkLayer packet;
     gopacket.Packet.TransportLayer := gopacket.Packet.TransportLayer packet;
     gopacket.Packet.ApplicationLayer := gopacket.Packet.ApplicationLayer packet |}.

(** Header size of step 7, over the record: [data_offset] plus the IP
    header length in bytes for IPv4, [data_offset] alone for IPv6. *)
Definition header_size (pckt : tcp.Packet) (t : layers.TCP) : Z :=
  if tcp.Version pckt =? 4 then layers.DataOffset t + tcp.IHL pckt
  else layers.DataOffset t.

(** [lost_bytes] as step 7 words it: a difference of integers. *)
Definition lost_bytes (pckt : tcp.Packet) (t : layers.TCP) (declared : Z) : Z :=
  declared - (header_size pckt t + len (layers.Payload t)).

(** "Stores in [Lost] the declared IP length minus (header size + observed
    payload length)". *)
Definition Lost_is_the_difference (pckt : tcp.Packet) : Prop :=
  exists t declared,
    tcp.TCP pckt = Some t /\ tcp.Length pckt = Returns declared /\
    tcp.Lost pckt = lost_bytes pckt t declared.

(** A negative difference that reached [Lost] as a large unsigned value. *)
Definition Lost_wrapped_around (pckt : tcp.Packet) : Prop :=
  exists t declared,
    tcp.TCP pckt = Some t /\ tcp.Length pckt = Returns declared /\
    lost_bytes pckt t declared < 0 /\
    tcp.Lost pckt = lost_bytes pckt t declared + 2 ^ 16.

(** "The network layer and the TCP transport layer are mutually present or
    both absent". *)
Definition layers_mutually_present (pckt : tcp.Packet) : Prop :=
  tcp.NetworkLayer pckt <> None <-> tcp.TCP pckt <> None.

(** A record none of whose layers was processed. *)
Definition no_layer_processed (pckt : tcp.Packet) : Prop :=
  tcp.NetworkLayer pckt = None /\ tcp.TCP pckt = None /\ tcp.DataLayer pckt = None.

(** The names of the set flags, in the order FIN, SYN, RST, PSH, ACK, URG. *)
Definition set_flags (t : layers.TCP) : list string :=
  map snd
    (filter fst
       [(layers.FIN t, "FIN"%string); (layers.SYN t, "SYN"%string);
        (layers.RST t, "RST"%string); (layers.PSH t, "PSH"%string);
        (layers.ACK t, "ACK"%string); (layers.URG t, "URG"%string)]).

(** [flags_summary()]: the set flags, separated by a comma and a space. *)
Definition flags_summary (t : layers.TCP) : string :=
  String.concat ", " (set_flags t).

(** The last element of a list that satisfies [f]. *)
Fixpoint last_matching {A : Type} (f : A -> bool) (l : list A) : option A :=
  match l with
  | [] => None
  | x :: rest =>
      match last_matching f rest with
      | Some y => Some y
      | None => if f x then Some x else None
      end
  end.

Definition is_MSS (o : layers.TCPOption) : bool :=
  layers.OptionType o =? layers.TCPOptionKindMSS.

(** A Window-Scale option with nonzero declared length. *)
Definition is_WindowScale (o : layers.TCPOption) : bool :=
  (layers.OptionType o =? layers.TCPOptionKindWindowScale)
  && (0 <? layers.OptionLength o).

(** The big-endian 16-bit integer held by the first two bytes of [data]. *)
Definition big_endian_16 (data : list byte) : Z :=
  match data with
  | hi :: lo :: _ => 256 * byte_val hi + byte_val lo
  | _ => 0
  end.

(** The exponent of a Window-Scale option: its first data byte. *)
Definition exponent (data : list byte) : Z :=
  match data with
  | n :: _ => byte_val n
  | [] => 0
  end.

Definition mss (options : list layers.TCPOption) : Z :=
  match last_matching is_MSS options with
  | Some o => big_endian_16 (layers.OptionData o)
  | None => 0
  end.

(** The scale factor as the specification states it: 2^n. *)
Definition windowscale_stated (options : list layers.TCPOption) : Z :=
  match last_matching is_WindowScale options with
  | Some o => 2 ^ exponent (layers.OptionData o)
  | None => 0
  end.

(** The scale factor that fits the 16-bit result: 2^n modulo 2^16. *)
Definition windowscale (options : list layers.TCPOption) : Z :=
  match last_matching is_WindowScale options with
  | Some o => 2 ^ exponent (layers.OptionData o) mod 2 ^ 16
  | None => 0
  end.

(** An option that carries the data bytes its kind reads: two for MSS, one
    for Window-Scale with nonzero declared length. *)
Definition carries_its_data (o : layers.TCPOption) : bool :=
  if is_MSS o then (2 <=? List.length (layers.OptionData o))%nat
  else if is_WindowScale o then (1 <=? List.length (layers.OptionData o))%nat
  else true.

(** The length an accepted network layer declares. *)
Definition declared_length (n : gopacket.NetworkLayer) : Z :=
  match n with
  | gopacket.IPv4 l => layers.IPv4_Length l
  | gopacket.IPv6 l => layers.IPv6_Length l
  | gopacket.OtherNetwork _ => 0
  end.

(** The header bytes subtracted for a TCP header [t] (data offset already in
    bytes) under the network layer [n]. *)
Definition subtracted_header (n : gopacket.NetworkLayer) (t : layers.TCP) : Z :=
  match n with
  | gopacket.IPv4 l => layers.DataOffset t + uint8 (layers.IPv4_IHL l * 4)
  | _ => layers.DataOffset t
  end.

(** The record of a recognised frame with network layer [n] and TCP layer
    [t]: every field set. *)
Definition populated (now : time.Time) (packet : gopacket.Packet.t)
  (n : gopacket.NetworkLayer) (t : layers.TCP) : tcp.Packet :=
  let t' := layers.DataOffset_times_4 t in
  {| tcp.LinkLayer := gopacket.Packet.LinkLayer packet;
     tcp.NetworkLayer := Some n;
     tcp.TCP := Some t';
     tcp.DataLayer := gopacket.Packet.ApplicationLayer packet;
     tcp.Lost :=
       uint16 (declared_length n - (subtracted_header n t' + len (layers.Payload t')));
     tcp.Timestamp := timestamp now packet |}.

(** The record of a frame that is not recognised: the layers up to the one
    that was refused, and none of the derived fields. *)
Definition skipped (now : time.Time) (packet : gopacket.Packet.t) : tcp.Packet :=
  {| tcp.LinkLayer := gopacket.Packet.LinkLayer packet;
     tcp.NetworkLayer :=
       if is_IP (gopacket.Packet.NetworkLayer packet)
       then gopacket.Packet.NetworkLayer packet else None;
     tcp.TCP := None;
     tcp.DataLayer := None;
     tcp.Lost := 0;
     tcp.Timestamp := timestamp now packet |}.

End spec.

(* ================================================================== *)
(** ** Sample frames *)

Module sample.

Definition header (words : Z) (syn ack : bool)
  (options : list layers.TCPOption) (payload : list byte) : layers.TCP :=
  {| layers.SrcPort := 49152; layers.DstPort := 80;
     layers.Seq := 1000; layers.Ack := 0;
     layers.DataOffset := words;
     layers.FIN := false; layers.SYN := syn; layers.RST := false;
     layers.PSH := false; layers.ACK := ack; layers.URG := false;
     layers.Window := 64240; layers.Options := options;
     layers.Payload := payload |}.

Definition ipv4 (ihl length : Z) : gopacket.NetworkLayer :=
  gopacket.IPv4
    {| layers.IPv4_IHL := ihl; layers.IPv4_Length := length;
       layers.IPv4_SrcIP := [x0a; x00; x00; x01];
       layers.IPv4_DstIP := [x0a; x00; x00; x02] |}.

Definition ipv6 (length : Z) : gopacket.NetworkLayer :=
  gopacket.IPv6
    {| layers.IPv6_Length := length;
       layers.IPv6_SrcIP := repeat x00 15 ++ [x01];
       layers.IPv6_DstIP := repeat x00 15 ++ [x02] |}.

Definition frame (e : option gopacket.ErrorLayer)
  (n : option gopacket.NetworkLayer) (t : option gopacket.TransportLayer)
  (data : list byte) : gopacket.Packet.t :=
  {| gopacket.Packet.ErrorLayer := e;
     gopacket.Packet.Metadata_Timestamp := 1700000000;
     gopacket.Packet.LinkLayer := Some [x00; x11; x22; x33; x44; x55];
     gopacket.Packet.NetworkLayer := n;
     gopacket.Packet.TransportLayer := t;
     gopacket.Packet.ApplicationLayer :=
       match data with [] => None | _ => Some data end |}.

Definition tcp_frame (e : option gopacket.ErrorLayer) (n : gopacket.NetworkLayer)
  (payload : list byte) : gopacket.Packet.t :=
  frame e (Some n) (Some (gopacket.TCP (header 5 false true [] payload))) payload.

(** Declared IPv4 total length 60, IHL 5, data offset 5 words, 15 payload
    bytes observed. *)
Definition truncated_capture : gopacket.Packet.t :=
  tcp_frame None (ipv4 5 60) (repeat x61 15).

(** Declared IPv4 total length 40, IHL 5, data offset 5 words, 10 payload
    bytes observed: more bytes than the declared length accounts for. *)
Definition short_declared_v4 : gopacket.Packet.t :=
  tcp_frame None (ipv4 5 40) (repeat x61 10).

(** Declared IPv6 payload length 20, data offset 5 words, 1 payload byte. *)
Definition short_declared_v6 : gopacket.Packet.t :=
  tcp_frame None (ipv6 20) [x61].

(** An IPv4 datagram that carries something else than TCP. *)
Definition ipv4_not_tcp : gopacket.Packet.t :=
  frame None (Some (ipv4 5 28)) (Some (gopacket.OtherTransport [x00; x35])) [].

(** A frame with no IP layer at all. *)
Definition not_ip : gopacket.Packet.t :=
  frame None (Some (gopacket.OtherNetwork [x00; x01])) None [].

(** An IPv4 TCP frame for which the decoder reported a decode failure. *)
Definition decode_failure : gopacket.Packet.t :=
  tcp_frame (Some (gopacket.DecodeFailure "truncated"%string)) (ipv4 5 60) (repeat x61 15).

(** Records, as [ParsePacket] builds them, around a given TCP header. *)
Definition record (t : layers.TCP) : tcp.Packet :=
  {| tcp.LinkLayer := None; tcp.NetworkLayer := Some (ipv4 5 60);
     tcp.TCP := Some t; tcp.DataLayer := None; tcp.Lost := 0;
     tcp.Timestamp := 1700000000 |}.

Definition opt (kind length : Z) (data : list byte) : layers.TCPOption :=
  {| layers.OptionType := kind; layers.OptionLength := length;
     layers.OptionData := data |}.

Definition syn_ack : tcp.Packet := record (header 20 true true [] []).

Definition ack_with_options : tcp.Packet :=
  record (header 28 false true [opt 2 4 [x05; xb4]; opt 3 3 [x07]] []).

Definition syn_mss_1460_scale_7 : tcp.Packet :=
  record (header 28 true false
            [opt 2 4 [x02; x18]; opt 1 1 []; opt 3 3 [x02];
             opt 2 4 [x05; xb4]; opt 3 3 [x07]; opt 3 0 [x09];
             opt 4 2 []] []).

(** Window-Scale with exponent 16. *)
Definition syn_scale_16 : tcp.Packet :=
  record (header 24 true false [opt 3 3 [x10]] []).

(** MSS with declared length 2: kind and length, no data. *)
Definition syn_mss_no_data : tcp.Packet :=
  record (header 24 true false [opt 2 2 []] []).

(** MSS with declared length 3: one data byte. *)
Definition syn_mss_one_byte : tcp.Packet :=
  record (header 24 true false [opt 2 3 [x05]] []).

(** MSS cut off after its kind byte: the decoder leaves the declared
    length 0 and no data. *)
Definition syn_mss_cut_off : tcp.Packet :=
  record (header 24 true false [opt 2 0 []] []).

(** Window-Scale with declared length 2: kind and length, no data. *)
Definition syn_scale_no_data : tcp.Packet :=
  record (header 24 true false [opt 3 2 []] []).

End sample.

(* ================================================================== *)
(** ** Vocabulary for the rest of the package *)

Module shape.

(** The options [SYNOptions] reads: MSS, and Window-Scale with nonzero
    declared length. *)
Definition read_by_SYNOptions (o : layers.TCPOption) : bool :=
  spec.is_MSS o || spec.is_WindowScale o.

(** Two TCP headers that agree on every field but [DataOffset]. *)
Definition same_but_DataOffset (t t' : layers.TCP) : Prop :=
  layers.SrcPort t' = layers.SrcPort t /\ layers.DstPort t' = layers.DstPort t /\
  layers.Seq t' = layers.Seq t /\ layers.Ack t' = layers.Ack t /\
  layers.FIN t' = layers.FIN t /\ layers.SYN t' = layers.SYN t /\
  layers.RST t' = layers.RST t /\ layers.PSH t' = layers.PSH t /\
  layers.ACK t' = layers.ACK t /\ layers.URG t' = layers.URG t /\
  layers.Window t' = layers.Window t /\ layers.Options t' = layers.Options t /\
  layers.Payload t' = layers.Payload t.

(** Two frames that agree on everything but the transport layer. *)
Definition same_but_TransportLayer (p p' : gopacket.Packet.t) : Prop :=
  gopacket.Packet.ErrorLayer p' = gopacket.Packet.ErrorLayer p /\
  gopacket.Packet.Metadata_Timestamp p' = gopacket.Packet.Metadata_Timestamp p /\
  gopacket.Packet.LinkLayer p' = gopacket.Packet.LinkLayer p /\
  gopacket.Packet.NetworkLayer p' = gopacket.Packet.NetworkLayer p /\
  gopacket.Packet.ApplicationLayer p' = gopacket.Packet.ApplicationLayer p.

(** The six flags [Flag] prints. *)
Definition flags (t : layers.TCP) : list bool :=
  [layers.FIN t; layers.SYN t; layers.RST t; layers.PSH t; layers.ACK t;
   layers.URG t].

(** The flags a summary names: for each of the six names, in the order of
    [flags], whether it occurs in the string. *)
Definition read_flags (flag : string) : list bool :=
  map (fun name => match String.index 0%nat name flag with Some _ => true | None => false end)
    ["FIN"%string; "SYN"%string; "RST"%string; "PSH"%string; "ACK"%string;
     "URG"%string].

End shape.

(* ================================================================== *)
(** ** The code on the sample frames *)

Example ParsePacket_truncated_capture :
  exists pckt, tcp.ParsePacket 1 sample.truncated_capture = Returns (pckt, None)
    /\ tcp.Lost pckt = 5
    /\ option_map layers.DataOffset (tcp.TCP pckt) = Some 20
    /\ tcp.Timestamp pckt = 1700000000.
Proof. eexists. repeat split. Qed.

Example ParsePacket_short_declared_v4 :
  exists pckt, tcp.ParsePacket 1 sample.short_declared_v4 = Returns (pckt, None)
    /\ tcp.Lost pckt = 65526.
Proof. eexists. repeat split. Qed.

Example ParsePacket_not_ip :
  tcp.ParsePacket 1 sample.not_ip
  = Returns ({| tcp.LinkLayer := Some [x00; x11; x22; x33; x44; x55];
                tcp.NetworkLayer := None; tcp.TCP := None;
                tcp.DataLayer := None; tcp.Lost := 0;
                tcp.Timestamp := 1700000000 |}, None).
Proof. reflexivity. Qed.

Example Flag_syn_ack : tcp.Flag sample.syn_ack = Returns "SYN, ACK"%string.
Proof. reflexivity. Qed.

Example SYNOptions_syn_mss_1460_scale_7 :
  tcp.SYNOptions sample.syn_mss_1460_scale_7 = Returns (1460, 128).
Proof. reflexivity. Qed.

Example SYNOptions_ack_with_options :
  tcp.SYNOptions sample.ack_with_options = Returns (0, 0).
Proof. reflexivity. Qed.

Example SYNOptions_syn_scale_16 :
  tcp.SYNOptions sample.syn_scale_16 = Returns (0, 0).
Proof. reflexivity. Qed.

Example SYNOptions_syn_mss_one_byte :
  tcp.SYNOptions sample.syn_mss_one_byte = Panics IndexOutOfRange.
Proof. reflexivity. Qed.

(* ================================================================== *)
(** ** Machine integers *)

Arguments Go.uint8 : simpl never.
Arguments Go.uint16 : simpl never.
Arguments Go.uint32 : simpl never.
Arguments Go.int : simpl never.
Arguments Go.len : simpl never.

Section MachineIntegers.

Lemma uint8_range (z : Z) : 0 <= uint8 z < 256.
Proof. unfold uint8. apply Z.mod_pos_bound. reflexivity. Qed.

Lemma uint8_small (z : Z) : 0 <= z < 256 -> uint8 z = z.
Proof. intros H. unfold uint8. apply Z.mod_small. exact H. Qed.

Lemma uint16_small (z : Z) : 0 <= z < 65536 -> uint16 z = z.
Proof. intros H. unfold uint16. apply Z.mod_small. exact H. Qed.

Lemma uint32_small (z : Z) : 0 <= z < 2 ^ 32 -> uint32 z = z.
Proof. intros H. unfold uint32. apply Z.mod_small. exact H. Qed.

Lemma int_small (z : Z) : - 2 ^ 63 <= z < 2 ^ 63 -> int z = z.
Proof. intros H. unfold int. rewrite Z.mod_small; lia. Qed.

(** Narrowing a machine word to 16 bits forgets how wide the word was. *)
Lemma uint16_int (z : Z) : uint16 (int z) = uint16 z.
Proof.
  unfold uint16, int.
  rewrite (Z.mod_eq (z + 2 ^ 63) (2 ^ 64)) by lia.
  set (q := (z + 2 ^ 63) / 2 ^ 64).
  replace (z + 2 ^ 63 - 2 ^ 64 * q - 2 ^ 63) with (z + (- (2 ^ 48 * q)) * 2 ^ 16) by lia.
  apply Z_mod_plus_full.
Qed.

(** Subtraction modulo 2^16 does not see an earlier narrowing of its
    right operand. *)
Lemma uint16_minus_uint16 (a b : Z) : uint16 (a - uint16 b) = uint16 (a - b).
Proof. unfold uint16. apply Zminus_mod_idemp_r. Qed.

(** A [uint8] multiplied by 4 stays a multiple of 4 after wrap-around. *)
Lemma uint8_times_4_divisible (z : Z) : uint8 (z * 4) mod 4 = 0.
Proof.
  unfold uint8.
  rewrite Z.mod_mod_divide by (exists 64; reflexivity).
  apply Z_mod_mult.
Qed.

Lemma byte_val_range (b : byte) : 0 <= byte_val b < 256.
Proof.
  unfold byte_val. pose proof (Byte.to_N_bounded b) as H. lia.
Qed.

(** A byte and a byte shifted by 8 have no bit in common. *)
Lemma land_byte_shifted (lo hi : Z) :
  0 <= lo < 256 -> Z.land lo (Z.shiftl hi 8) = 0.
Proof.
  intros Hlo. apply Z.bits_inj'. intros n Hn.
  rewrite Z.land_spec, Z.bits_0.
  destruct (Z.ltb_spec n 8) as [Hlt | Hge].
  - rewrite (Z.shiftl_spec_low hi 8 n Hlt). apply andb_false_r.
  - assert (Z.testbit lo n = false) as ->; [ | reflexivity ].
    destruct (Z.eq_dec lo 0) as [-> | Hnz].
    + apply Z.bits_0.
    + apply Z.bits_above_log2; [ lia | ].
      apply Z.log2_lt_pow2; [ lia | ].
      apply Z.lt_le_trans with (2 ^ 8); [ simpl; lia | ].
      apply Z.pow_le_mono_r; lia.
Qed.

Lemma lor_byte_shifted (lo hi : Z) :
  0 <= lo < 256 -> Z.lor lo (Z.shiftl hi 8) = 256 * hi + lo.
Proof.
  intros Hlo.
  rewrite <- Z.lxor_lor by (apply land_byte_shifted; exact Hlo).
  rewrite <- Z.add_nocarry_lxor by (apply land_byte_shifted; exact Hlo).
  rewrite Z.shiftl_mul_pow2 by lia. change (2 ^ 8) with 256. lia.
Qed.

(** [binary.BigEndian.Uint16] on a slice of at least two bytes. *)
Lemma BigEndian_Uint16_two (hi lo : byte) (rest : list byte) :
  binary.BigEndian_Uint16 (hi :: lo :: rest)
  = Returns (256 * byte_val hi + byte_val lo).
Proof.
  unfold binary.BigEndian_Uint16, index. cbn [nth_error bind].
  pose proof (byte_val_range hi) as Hhi.
  pose proof (byte_val_range lo) as Hlo.
  rewrite (uint16_small (byte_val hi)) by lia.
  rewrite (uint16_small (byte_val lo)) by lia.
  rewrite (uint16_small (Z.shiftl (byte_val hi) 8))
    by (rewrite Z.shiftl_mul_pow2 by lia; change (2 ^ 8) with 256; lia).
  rewrite lor_byte_shifted by exact Hlo.
  reflexivity.
Qed.

(** [binary.BigEndian.Uint16] on a shorter slice. *)
Lemma BigEndian_Uint16_short (data : list byte) :
  (List.length data < 2)%nat ->
  binary.BigEndian_Uint16 data = Panics IndexOutOfRange.
Proof.
  intros H. destruct data as [ | hi [ | lo rest ] ]; try reflexivity.
  simpl in H. lia.
Qed.

(** [1 << n] in 16 bits. *)
Lemma shift_one_uint16 (n : Z) :
  0 <= n -> uint16 (Z.shiftl 1 n) = 2 ^ n mod 2 ^ 16.
Proof.
  intros Hn. unfold uint16. rewrite Z.shiftl_mul_pow2 by exact Hn.
  rewrite Z.mul_1_l. reflexivity.
Qed.

End MachineIntegers.

(* ================================================================== *)
(** ** ParsePacket *)

Section ParsePacket.

Variable now : time.Time.
Variable packet : gopacket.Packet.t.

(** The arithmetic of "calculating lost data", freed of its conversions. *)
Lemma Lost_arithmetic (declared offset ihl payload : Z) :
  0 <= offset < 256 -> 0 <= ihl < 256 ->
  uint16 (declared
          - uint16 (int (int (uint32 (uint32 offset + uint32 ihl)) + payload)))
  = uint16 (declared - (offset + ihl + payload)).
Proof.
  intros Ho Hi.
  rewrite uint16_minus_uint16, <- uint16_minus_uint16, uint16_int,
    uint16_minus_uint16.
  rewrite (uint32_small offset), (uint32_small ihl) by lia.
  rewrite uint32_small by lia.
  rewrite int_small by lia.
  reflexivity.
Qed.

Lemma Lost_arithmetic_v6 (declared offset payload : Z) :
  0 <= offset < 256 ->
  uint16 (declared - uint16 (int (int offset + payload)))
  = uint16 (declared - (offset + payload)).
Proof.
  intros Ho.
  rewrite uint16_minus_uint16, <- uint16_minus_uint16, uint16_int,
    uint16_minus_uint16.
  rewrite int_small by lia.
  reflexivity.
Qed.

(** The body on a recognised frame: it reaches its last [return]. *)
Lemma ParsePacket_body_recognised (n : gopacket.NetworkLayer) (t : layers.TCP) :
  gopacket.Packet.NetworkLayer packet = Some n ->
  spec.is_IP (Some n) = true ->
  gopacket.Packet.TransportLayer packet = Some (gopacket.TCP t) ->
  tcp.ParsePacket_body now packet
  = Returns (tcp.write_TCP packet (layers.DataOffset_times_4 t),
             spec.populated now packet n t).
Proof.
  intros Hn Hip Ht. unfold tcp.ParsePacket_body. rewrite Hn, Ht.
  pose proof (uint8_range (layers.DataOffset t * 4)) as Ho.
  unfold spec.populated, spec.timestamp, time.Equal, time.zero.
  destruct n as [l | l | c]; [ | | discriminate Hip ];
    unfold tcp.IHL, tcp.Version, tcp.Length, tcp.set_Lost, tcp.set_DataLayer,
      tcp.set_TCP, tcp.set_NetworkLayer, tcp.set_LinkLayer, tcp.set_Timestamp,
      tcp.new_Packet;
    simpl;
    destruct (gopacket.Packet.Metadata_Timestamp packet =? 0);
    simpl; do 3 f_equal.
  - apply Lost_arithmetic; [ exact Ho | apply uint8_range ].
  - apply Lost_arithmetic; [ exact Ho | apply uint8_range ].
  - apply Lost_arithmetic_v6. exact Ho.
  - apply Lost_arithmetic_v6. exact Ho.
Qed.

(** The body on any other frame: it leaves through one of the two early
    [return]s. *)
Lemma ParsePacket_body_skipped :
  spec.recognised packet = false ->
  tcp.ParsePacket_body now packet = Returns (packet, spec.skipped now packet).
Proof.
  unfold spec.recognised, spec.skipped, spec.timestamp, tcp.ParsePacket_body.
  intros H.
  destruct (gopacket.Packet.NetworkLayer packet) as [ [l | l | c] | ];
    destruct (gopacket.Packet.TransportLayer packet) as [ [t | c'] | ];
    try discriminate H;
    unfold tcp.set_NetworkLayer, tcp.set_LinkLayer, tcp.set_Timestamp,
      tcp.new_Packet, time.Equal, time.zero;
    simpl;
    destruct (gopacket.Packet.Metadata_Timestamp packet =? 0);
    reflexivity.
Qed.

Lemma recognised_layers :
  spec.recognised packet = true ->
  exists n t,
    gopacket.Packet.NetworkLayer packet = Some n /\
    spec.is_IP (Some n) = true /\
    gopacket.Packet.TransportLayer packet = Some (gopacket.TCP t).
Proof.
  unfold spec.recognised. intros H. apply andb_true_iff in H as [Hn Ht].
  destruct (gopacket.Packet.NetworkLayer packet) as [ n | ]; [ | discriminate Hn ].
  destruct (gopacket.Packet.TransportLayer packet) as [ [t | c] | ];
    try discriminate Ht.
  exists n, t. auto.
Qed.

(** The deferred closure reports the error of the error layer, whichever
    branch of its type test is taken. *)
Lemma ParsePacket_deferred_reported :
  tcp.ParsePacket_deferred packet None = spec.reported_error packet.
Proof.
  unfold tcp.ParsePacket_deferred, spec.reported_error.
  destruct (gopacket.Packet.ErrorLayer packet) as [ [err | err] | ]; reflexivity.
Qed.

(** The write to the TCP layer leaves the error layer as it was. *)
Lemma ParsePacket_deferred_write (t : layers.TCP) :
  tcp.ParsePacket_deferred (tcp.write_TCP packet t) None
  = spec.reported_error packet.
Proof.
  unfold tcp.ParsePacket_deferred, spec.reported_error, tcp.write_TCP.
  cbn [gopacket.Packet.ErrorLayer].
  destruct (gopacket.Packet.ErrorLayer packet) as [ [err | err] | ]; reflexivity.
Qed.

Lemma ParsePacket_recognised (n : gopacket.NetworkLayer) (t : layers.TCP) :
  gopacket.Packet.NetworkLayer packet = Some n ->
  spec.is_IP (Some n) = true ->
  gopacket.Packet.TransportLayer packet = Some (gopacket.TCP t) ->
  tcp.ParsePacket now packet
  = Returns (spec.populated now packet n t, spec.reported_error packet).
Proof.
  intros Hn Hip Ht. unfold tcp.ParsePacket.
  rewrite (ParsePacket_body_recognised n t Hn Hip Ht). cbn [bind fst snd].
  rewrite ParsePacket_deferred_write. reflexivity.
Qed.

Lemma ParsePacket_skipped :
  spec.recognised packet = false ->
  tcp.ParsePacket now packet
  = Returns (spec.skipped now packet, spec.reported_error packet).
Proof.
  intros H. unfold tcp.ParsePacket.
  rewrite (ParsePacket_body_skipped H). cbn [bind fst snd].
  rewrite ParsePacket_deferred_reported. reflexivity.
Qed.

(** [ParsePacket] cannot panic: each of its unchecked accesses is
    dominated by the test that makes it safe. *)
Lemma ParsePacket_returns :
  exists pckt,
    tcp.ParsePacket now packet = Returns (pckt, spec.reported_error packet).
Proof.
  destruct (spec.recognised packet) eqn:E.
  - destruct (recognised_layers E) as (n & t & Hn & Hip & Ht).
    eexists. apply (ParsePacket_recognised n t Hn Hip Ht).
  - eexists. apply (ParsePacket_skipped E).
Qed.

End ParsePacket.

(** The accessors on a fully populated record. *)
Section Populated.

Variable now : time.Time.
Variable packet : gopacket.Packet.t.
Variable n : gopacket.NetworkLayer.
Variable t : layers.TCP.
Hypothesis n_is_IP : spec.is_IP (Some n) = true.

Lemma Length_populated :
  tcp.Length (spec.populated now packet n t) = Returns (spec.declared_length n).
Proof.
  unfold tcp.Length, spec.populated. cbn [tcp.NetworkLayer].
  destruct n; [ reflexivity | reflexivity | discriminate n_is_IP ].
Qed.

Lemma header_size_populated :
  spec.header_size (spec.populated now packet n t) (layers.DataOffset_times_4 t)
  = spec.subtracted_header n (layers.DataOffset_times_4 t).
Proof.
  unfold spec.header_size, spec.subtracted_header, tcp.Version, tcp.IHL,
    spec.populated.
  cbn [tcp.NetworkLayer].
  destruct n; [ reflexivity | reflexivity | discriminate n_is_IP ].
Qed.

Lemma Lost_populated :
  tcp.Lost (spec.populated now packet n t)
  = spec.lost_bytes (spec.populated now packet n t)
      (layers.DataOffset_times_4 t) (spec.declared_length n) mod 2 ^ 16.
Proof.
  unfold spec.lost_bytes. rewrite header_size_populated. reflexivity.
Qed.

End Populated.

(* ================================================================== *)
(** ** Lost bytes *)

(** C1 (as amended). For every frame accepted as TCP over IPv4/IPv6,
    [ParsePacket] returns a record whose [Lost] is the declared IP length
    minus (header size + observed payload length) reduced modulo 2^16, where
    header size is [DataOffset] plus [IHL()] bytes for IPv4 and [DataOffset]
    alone for IPv6; whenever that difference lies in the range of the 16-bit
    field, [Lost] is the difference itself. *)
Theorem ParsePacket_Lost (now : time.Time) (packet : gopacket.Packet.t) :
  spec.recognised packet = true ->
  exists pckt t declared,
    tcp.ParsePacket now packet = Returns (pckt, spec.reported_error packet) /\
    tcp.TCP pckt = Some t /\
    tcp.Length pckt = Returns declared /\
    tcp.Lost pckt = spec.lost_bytes pckt t declared mod 2 ^ 16 /\
    (0 <= spec.lost_bytes pckt t declared < 2 ^ 16 ->
     tcp.Lost pckt = spec.lost_bytes pckt t declared).
Proof.
  intros H. destruct (recognised_layers packet H) as (n & t & Hn & Hip & Ht).
  exists (spec.populated now packet n t), (layers.DataOffset_times_4 t),
    (spec.declared_length n).
  split; [ apply (ParsePacket_recognised now packet n t Hn Hip Ht) | ].
  split; [ reflexivity | ].
  split; [ apply Length_populated; exact Hip | ].
  pose proof (Lost_populated now packet n t Hip) as HL.
  split; [ exact HL | ].
  intros Hrange. rewrite HL. apply Z.mod_small. exact Hrange.
Qed.

(** The frame of the specification: declared length 60, IHL 5, data offset
    5 words, 15 payload bytes; 5 bytes are lost. *)
Lemma ParsePacket_Lost_witness :
  spec.recognised sample.truncated_capture = true /\
  exists pckt,
    tcp.ParsePacket 1 sample.truncated_capture = Returns (pckt, None) /\
    tcp.Lost pckt = 60 - (20 + 20 + 15).
Proof.
  split; [ reflexivity | ].
  destruct (ParsePacket_Lost 1 sample.truncated_capture eq_refl)
    as (pckt & t & declared & HP & Ht & Hd & _ & Hexact).
  exists pckt. split; [ exact HP | ].
  vm_compute in HP. injection HP as <-.
  injection Ht as <-. injection Hd as <-.
  rewrite Hexact.
  - reflexivity.
  - vm_compute. split; [ discriminate | reflexivity ].
Defined.

(** C1, counterexample. Declared IPv4 length 40 under 20 + 20 header bytes
    and 10 payload bytes: the difference is -10, [Lost] is 65526. *)
Lemma ParsePacket_Lost_not_the_difference :
  exists pckt,
    tcp.ParsePacket 1 sample.short_declared_v4 = Returns (pckt, None) /\
    tcp.Lost pckt = 65526 /\
    ~ spec.Lost_is_the_difference pckt.
Proof.
  eexists. split; [ reflexivity | ]. split; [ reflexivity | ].
  intros (t & declared & Ht & Hd & HL).
  injection Ht as <-. injection Hd as <-.
  vm_compute in HL. discriminate HL.
Qed.

(** C2 (as amended). [ParsePacket] subtracts in unsigned 16-bit arithmetic
    and never panics: when the declared IP length is smaller than header
    size plus observed payload length (by at most 2^16), [Lost] is the
    negative difference plus 2^16, and the error result is that of the
    frame's error layer alone, so nothing in the outcome marks the
    wrap-around. *)
Theorem ParsePacket_Lost_wraps (now : time.Time) (packet : gopacket.Packet.t) :
  spec.recognised packet = true ->
  exists pckt t declared,
    tcp.ParsePacket now packet = Returns (pckt, spec.reported_error packet) /\
    tcp.TCP pckt = Some t /\
    tcp.Length pckt = Returns declared /\
    (- 2 ^ 16 <= spec.lost_bytes pckt t declared < 0 ->
     tcp.Lost pckt = spec.lost_bytes pckt t declared + 2 ^ 16 /\
     spec.Lost_wrapped_around pckt).
Proof.
  intros H. destruct (recognised_layers packet H) as (n & t & Hn & Hip & Ht).
  exists (spec.populated now packet n t), (layers.DataOffset_times_4 t),
    (spec.declared_length n).
  split; [ apply (ParsePacket_recognised now packet n t Hn Hip Ht) | ].
  split; [ reflexivity | ].
  split; [ apply Length_populated; exact Hip | ].
  intros Hneg.
  assert (tcp.Lost (spec.populated now packet n t)
          = spec.lost_bytes (spec.populated now packet n t)
              (layers.DataOffset_times_4 t) (spec.declared_length n) + 2 ^ 16)
    as HL.
  { rewrite (Lost_populated now packet n t Hip).
    set (d := spec.lost_bytes _ _ _) in *.
    rewrite <- (Z_mod_plus_full d 1 (2 ^ 16)).
    apply Z.mod_small. lia. }
  split; [ exact HL | ].
  exists (layers.DataOffset_times_4 t), (spec.declared_length n).
  split; [ reflexivity | ].
  split; [ apply Length_populated; exact Hip | ].
  split; [ lia | exact HL ].
Qed.

Lemma ParsePacket_Lost_wraps_witness :
  exists pckt,
    tcp.ParsePacket 1 sample.short_declared_v4 = Returns (pckt, None) /\
    tcp.Lost pckt = 40 - (20 + 20 + 10) + 2 ^ 16.
Proof.
  destruct (ParsePacket_Lost_wraps 1 sample.short_declared_v4 eq_refl)
    as (pckt & t & declared & HP & Ht & Hd & Hwrap).
  exists pckt. split; [ exact HP | ].
  vm_compute in HP. injection HP as <-.
  injection Ht as <-. injection Hd as <-.
  destruct Hwrap as [HL _]; [ vm_compute; split; [ discriminate | reflexivity ] | ].
  rewrite HL. reflexivity.
Defined.

(** C2, counterexample. Declared IPv6 payload length 20 under a 20-byte TCP
    header and 1 payload byte, no error layer: [ParsePacket] returns no
    error and [Lost] = 65535, the difference -1 wrapped around. *)
Lemma ParsePacket_Lost_wraps_silently :
  exists pckt,
    tcp.ParsePacket 1 sample.short_declared_v6 = Returns (pckt, None) /\
    tcp.Lost pckt = 65535 /\
    spec.Lost_wrapped_around pckt.
Proof.
  eexists. split; [ reflexivity | ]. split; [ reflexivity | ].
  eexists. eexists.
  split; [ reflexivity | ]. split; [ reflexivity | ].
  split; reflexivity.
Qed.

(* ================================================================== *)
(** ** Data offset *)

(** C3. For every frame [ParsePacket] accepts as TCP over IPv4/IPv6, the
    [DataOffset] of the record's TCP layer is a multiple of 4, and it is 4
    times the word count the decoder reported; the product is taken in
    [uint8], which holds it for every count below 64, so for every value of
    the 4-bit header field. *)
Theorem ParsePacket_DataOffset (now : time.Time) (packet : gopacket.Packet.t) :
  spec.recognised packet = true ->
  exists pckt t t',
    tcp.ParsePacket now packet = Returns (pckt, spec.reported_error packet) /\
    gopacket.Packet.TransportLayer packet = Some (gopacket.TCP t) /\
    tcp.TCP pckt = Some t' /\
    layers.DataOffset t' mod 4 = 0 /\
    (0 <= layers.DataOffset t < 64 ->
     layers.DataOffset t' = 4 * layers.DataOffset t).
Proof.
  intros H. destruct (recognised_layers packet H) as (n & t & Hn & Hip & Ht).
  exists (spec.populated now packet n t), t, (layers.DataOffset_times_4 t).
  split; [ apply (ParsePacket_recognised now packet n t Hn Hip Ht) | ].
  split; [ exact Ht | ].
  split; [ reflexivity | ].
  cbn [layers.DataOffset_times_4 layers.DataOffset].
  split; [ apply uint8_times_4_divisible | ].
  intros Hd. rewrite uint8_small by lia. lia.
Qed.

Lemma ParsePacket_DataOffset_witness :
  exists pckt t',
    tcp.ParsePacket 1 sample.truncated_capture = Returns (pckt, None) /\
    tcp.TCP pckt = Some t' /\
    layers.DataOffset t' = 4 * 5.
Proof.
  destruct (ParsePacket_DataOffset 1 sample.truncated_capture eq_refl)
    as (pckt & t & t' & HP & Ht & Ht' & _ & Hfour).
  exists pckt, t'. split; [ exact HP | ]. split; [ exact Ht' | ].
  injection Ht as <-. apply Hfour. vm_compute. split; [ discriminate | reflexivity ].
Defined.

(** X4. The scaled data offset is written into the layer the frame holds:
    a second call on the same frame scales it once more. *)
Remark ParsePacket_again (now : time.Time) (packet : gopacket.Packet.t)
  (t : layers.TCP) :
  spec.recognised packet = true ->
  gopacket.Packet.TransportLayer packet = Some (gopacket.TCP t) ->
  exists packet' pckt' t',
    tcp.ParsePacket_frame now packet = Returns packet' /\
    tcp.ParsePacket now packet' = Returns (pckt', spec.reported_error packet) /\
    tcp.TCP pckt' = Some t' /\
    layers.DataOffset t' = uint8 (uint8 (layers.DataOffset t * 4) * 4).
Proof.
  intros H Ht.
  destruct (recognised_layers packet H) as (n & t0 & Hn & Hip & Ht0).
  rewrite Ht in Ht0. injection Ht0 as <-.
  set (t1 := layers.DataOffset_times_4 t).
  exists (tcp.write_TCP packet t1), (spec.populated now (tcp.write_TCP packet t1) n t1),
    (layers.DataOffset_times_4 t1).
  split.
  - unfold tcp.ParsePacket_frame.
    rewrite (ParsePacket_body_recognised now packet n t Hn Hip Ht). reflexivity.
  - split; [ | split; reflexivity ].
    exact (ParsePacket_recognised now (tcp.write_TCP packet t1) n t1 Hn Hip eq_refl).
Qed.

(* ================================================================== *)
(** ** Frames that are not TCP over IP *)

(** C4 (as amended). [ParsePacket] always returns, with the error of the
    frame's error layer if it has one and no error otherwise. For a frame
    whose network layer is not IPv4/IPv6 or whose transport layer is not
    TCP the record holds the timestamp, the link layer and, when it is
    IPv4/IPv6, the network layer; it has no TCP layer, no application data
    and [Lost] = 0. In every record returned, a TCP layer comes with an
    IPv4/IPv6 network layer. *)
Theorem ParsePacket_skip (now : time.Time) (packet : gopacket.Packet.t) :
  exists pckt,
    tcp.ParsePacket now packet = Returns (pckt, spec.reported_error packet) /\
    (spec.recognised packet = false ->
     pckt = spec.skipped now packet /\
     tcp.TCP pckt = None /\ tcp.DataLayer pckt = None /\ tcp.Lost pckt = 0 /\
     (gopacket.Packet.ErrorLayer packet = None ->
      spec.reported_error packet = None)) /\
    (tcp.TCP pckt <> None -> spec.is_IP (tcp.NetworkLayer pckt) = true).
Proof.
  destruct (spec.recognised packet) eqn:E.
  - destruct (recognised_layers packet E) as (n & t & Hn & Hip & Ht).
    exists (spec.populated now packet n t).
    split; [ apply (ParsePacket_recognised now packet n t Hn Hip Ht) | ].
    split; [ discriminate | ].
    intros _. exact Hip.
  - exists (spec.skipped now packet).
    split; [ apply (ParsePacket_skipped now packet E) | ].
    split.
    + intros _. repeat split.
      intros He. unfold spec.reported_error. rewrite He. reflexivity.
    + intros Habs. contradiction Habs. reflexivity.
Qed.

Lemma ParsePacket_skip_witness :
  exists pckt,
    tcp.ParsePacket 1 sample.not_ip = Returns (pckt, None) /\
    tcp.NetworkLayer pckt = None /\
    tcp.TCP pckt = None /\ tcp.DataLayer pckt = None /\ tcp.Lost pckt = 0.
Proof.
  destruct (ParsePacket_skip 1 sample.not_ip) as (pckt & HP & Hskip & _).
  destruct (Hskip eq_refl) as (Hshape & Htcp & Hdata & Hlost & _).
  exists pckt. split; [ exact HP | ].
  split; [ rewrite Hshape; reflexivity | ].
  auto.
Defined.

(** C4, counterexample. An IPv4 datagram that does not carry TCP, with no
    error layer: [ParsePacket] returns no error and a record whose network
    layer is present while its TCP layer is absent. *)
Lemma ParsePacket_skip_partial_record :
  exists pckt,
    tcp.ParsePacket 1 sample.ipv4_not_tcp = Returns (pckt, None) /\
    tcp.NetworkLayer pckt = Some (sample.ipv4 5 28) /\
    tcp.TCP pckt = None /\
    ~ spec.layers_mutually_present pckt.
Proof.
  eexists. split; [ reflexivity | ]. split; [ reflexivity | ].
  split; [ reflexivity | ].
  intros [Hpresent _]. apply Hpresent; [ discriminate | reflexivity ].
Qed.

(* ================================================================== *)
(** ** Frames with an error layer *)

(** The record does not depend on the error layer: the body of
    [ParsePacket] never reads it. *)
Lemma ParsePacket_without_error (now : time.Time) (packet : gopacket.Packet.t) :
  exists pckt,
    tcp.ParsePacket now packet = Returns (pckt, spec.reported_error packet) /\
    tcp.ParsePacket now (spec.without_error packet) = Returns (pckt, None).
Proof.
  destruct (spec.recognised packet) eqn:E.
  - destruct (recognised_layers packet E) as (n & t & Hn & Hip & Ht).
    exists (spec.populated now packet n t). split.
    + apply (ParsePacket_recognised now packet n t Hn Hip Ht).
    + exact (ParsePacket_recognised now (spec.without_error packet) n t Hn Hip Ht).
  - exists (spec.skipped now packet). split.
    + apply (ParsePacket_skipped now packet E).
    + exact (ParsePacket_skipped now (spec.without_error packet) E).
Qed.

(** C5 (as amended). For every frame for which the decoder reports an error
    layer, a decode failure or any other, [ParsePacket] returns that layer's
    error as its error result; the error is picked up when the function
    returns, so the record returned with it is the one the same frame
    yields without the error layer. *)
Theorem ParsePacket_error_layer (now : time.Time) (packet : gopacket.Packet.t)
  (e : gopacket.ErrorLayer) :
  gopacket.Packet.ErrorLayer packet = Some e ->
  exists pckt,
    tcp.ParsePacket now packet = Returns (pckt, Some (gopacket.Error e)) /\
    tcp.ParsePacket now (spec.without_error packet) = Returns (pckt, None).
Proof.
  intros He.
  destruct (ParsePacket_without_error now packet) as (pckt & HP & HQ).
  exists pckt. split; [ | exact HQ ].
  rewrite HP. unfold spec.reported_error. rewrite He. reflexivity.
Qed.

Lemma ParsePacket_error_layer_witness :
  exists pckt,
    tcp.ParsePacket 1 sample.decode_failure
    = Returns (pckt, Some "truncated"%string) /\
    tcp.ParsePacket 1 sample.truncated_capture = Returns (pckt, None).
Proof.
  exact (ParsePacket_error_layer 1 sample.decode_failure
           (gopacket.DecodeFailure "truncated"%string) eq_refl).
Defined.

(** C5, counterexample. An IPv4 TCP frame with a decode failure: the error
    is returned together with a record whose layers were all processed
    (data offset scaled to 20 bytes, 5 lost bytes computed). *)
Lemma ParsePacket_error_with_record :
  exists pckt,
    tcp.ParsePacket 1 sample.decode_failure
    = Returns (pckt, Some "truncated"%string) /\
    option_map layers.DataOffset (tcp.TCP pckt) = Some 20 /\
    tcp.Lost pckt = 5 /\
    ~ spec.no_layer_processed pckt.
Proof.
  eexists. split; [ reflexivity | ]. split; [ reflexivity | ].
  split; [ reflexivity | ].
  intros (Hn & _). discriminate Hn.
Qed.

(* ================================================================== *)
(** ** IP version *)

(** C10. [Version] returns 4 exactly when the stored network layer is an
    IPv4 layer and 6 in every other case, a nil network layer and a layer
    of another shape included; it returns nothing but 4 or 6. *)
Theorem Version_4_or_6 (pckt : tcp.Packet) :
  (tcp.Version pckt = 4 <->
   exists l, tcp.NetworkLayer pckt = Some (gopacket.IPv4 l)) /\
  (tcp.Version pckt = 6 <->
   ~ exists l, tcp.NetworkLayer pckt = Some (gopacket.IPv4 l)) /\
  (tcp.Version pckt = 4 \/ tcp.Version pckt = 6).
Proof.
  unfold tcp.Version.
  destruct (tcp.NetworkLayer pckt) as [ [l | l | c] | ].
  1: { repeat split; try discriminate; eauto.
       intros Habs. contradiction Habs. eauto. }
  all: repeat split; try discriminate; auto;
    try (intros (l' & Hl'); discriminate Hl');
    intros _ (l' & Hl'); discriminate Hl'.
Qed.

(* ================================================================== *)
(** ** Flag *)

(** C6. On every record with a TCP layer, [Flag] returns the names of
    exactly the set flags in the order FIN, SYN, RST, PSH, ACK, URG, joined
    by a comma and a space: nothing after the last name, and the empty
    string when no flag is set. *)
Theorem Flag_flags_summary (pckt : tcp.Packet) (t : layers.TCP) :
  tcp.TCP pckt = Some t ->
  tcp.Flag pckt = Returns (spec.flags_summary t) /\
  (spec.set_flags t = [] -> tcp.Flag pckt = Returns EmptyString).
Proof.
  intros Ht. unfold tcp.Flag. rewrite Ht. cbn [deref bind].
  unfold spec.flags_summary, spec.set_flags.
  destruct t as [sp dp sq ak off fin syn rst psh ack urg win opts payload].
  cbn [layers.FIN layers.SYN layers.RST layers.PSH layers.ACK layers.URG].
  destruct fin, syn, rst, psh, ack, urg;
    (split; [ reflexivity | intros H; first [ discriminate H | reflexivity ] ]).
Qed.

Lemma Flag_flags_summary_witness :
  tcp.Flag sample.syn_ack = Returns "SYN, ACK"%string.
Proof.
  exact (proj1 (Flag_flags_summary sample.syn_ack
                  (sample.header 20 true true [] []) eq_refl)).
Defined.

(* ================================================================== *)
(** ** SYN options *)

Section LastMatching.

Context {A : Type}.
Variable f : A -> bool.

Lemma last_matching_None (l : list A) :
  spec.last_matching f l = None <-> forallb (fun x => negb (f x)) l = true.
Proof.
  induction l as [ | x rest IH ]; cbn [spec.last_matching forallb].
  - tauto.
  - destruct (spec.last_matching f rest) as [ y | ].
    + split; [ discriminate | ].
      intros H. apply andb_true_iff in H as [_ H].
      apply IH in H. discriminate H.
    + destruct (f x); cbn [negb andb].
      * split; discriminate.
      * split; intros _; [ apply IH | ]; reflexivity.
Qed.

(** [last_matching] finds an element that satisfies [f] and is followed by
    none that does. *)
Lemma last_matching_Some (l : list A) (o : A) :
  spec.last_matching f l = Some o ->
  exists before after,
    l = before ++ o :: after /\ f o = true /\
    forallb (fun x => negb (f x)) after = true.
Proof.
  induction l as [ | x rest IH ]; cbn [spec.last_matching]; [ discriminate | ].
  destruct (spec.last_matching f rest) as [ y | ] eqn:E.
  - intros H. injection H as ->.
    destruct (IH eq_refl) as (before & after & -> & Hf & Hafter).
    exists (x :: before), after. auto.
  - destruct (f x) eqn:Hx; [ | discriminate ].
    intros H. injection H as ->.
    exists [], rest. split; [ reflexivity | ]. split; [ exact Hx | ].
    apply last_matching_None. exact E.
Qed.

End LastMatching.

(** One iteration, on an option that carries the data its kind reads. *)
Lemma SYNOptions_iter_carries (mss windowscale : Z) (v : layers.TCPOption) :
  spec.carries_its_data v = true ->
  tcp.SYNOptions_iter (mss, windowscale) v
  = Returns
      (if spec.is_MSS v then spec.big_endian_16 (layers.OptionData v) else mss,
       if spec.is_WindowScale v
       then 2 ^ spec.exponent (layers.OptionData v) mod 2 ^ 16
       else windowscale).
Proof.
  unfold spec.carries_its_data, spec.is_MSS, spec.is_WindowScale,
    tcp.SYNOptions_iter.
  destruct (layers.OptionType v =? layers.TCPOptionKindMSS) eqn:Emss.
  - apply Z.eqb_eq in Emss. rewrite Emss. cbn [Z.eqb Pos.eqb andb
      layers.TCPOptionKindMSS layers.TCPOptionKindWindowScale].
    destruct (layers.OptionData v) as [ | hi [ | lo rest ] ];
      cbn [List.length Nat.leb]; try discriminate.
    intros _. rewrite BigEndian_Uint16_two. reflexivity.
  - destruct (layers.OptionType v =? layers.TCPOptionKindWindowScale);
      [ | reflexivity ].
    destruct (0 <? layers.OptionLength v); cbn [andb]; [ | reflexivity ].
    destruct (layers.OptionData v) as [ | n rest ];
      cbn [List.length Nat.leb]; [ discriminate | ].
    intros _. unfold index. cbn [nth_error bind spec.exponent].
    rewrite shift_one_uint16 by apply byte_val_range.
    reflexivity.
Qed.

(** The loop, from any values of the named results: each is overwritten
    by the last option of its kind, and kept if there is none. *)
Lemma SYNOptions_range_last (options : list layers.TCPOption) :
  forall mss windowscale : Z,
    forallb spec.carries_its_data options = true ->
    tcp.SYNOptions_range options (mss, windowscale)
    = Returns
        (match spec.last_matching spec.is_MSS options with
         | Some o => spec.big_endian_16 (layers.OptionData o)
         | None => mss
         end,
         match spec.last_matching spec.is_WindowScale options with
         | Some o => 2 ^ spec.exponent (layers.OptionData o) mod 2 ^ 16
         | None => windowscale
         end).
Proof.
  induction options as [ | v rest IH ]; intros mss windowscale Hall.
  - reflexivity.
  - cbn [forallb] in Hall. apply andb_true_iff in Hall as [Hv Hrest].
    cbn [tcp.SYNOptions_range spec.last_matching].
    rewrite (SYNOptions_iter_carries mss windowscale v Hv). cbn [bind].
    rewrite (IH _ _ Hrest).
    destruct (spec.last_matching spec.is_MSS rest);
      destruct (spec.last_matching spec.is_WindowScale rest);
      destruct (spec.is_MSS v); destruct (spec.is_WindowScale v);
      reflexivity.
Qed.

(** An exponent below 16 gives the power of two itself. *)
Lemma windowscale_below_16 (options : list layers.TCPOption) :
  (forall o, spec.last_matching spec.is_WindowScale options = Some o ->
             spec.exponent (layers.OptionData o) < 16) ->
  spec.windowscale options = spec.windowscale_stated options.
Proof.
  unfold spec.windowscale, spec.windowscale_stated. intros H.
  destruct (spec.last_matching spec.is_WindowScale options) as [ o | ];
    [ | reflexivity ].
  specialize (H o eq_refl).
  assert (0 <= spec.exponent (layers.OptionData o)) as Hpos.
  { unfold spec.exponent. destruct (layers.OptionData o) as [ | n rest ];
      [ lia | apply byte_val_range ]. }
  apply Z.mod_small. split; [ apply Z.pow_nonneg; lia | ].
  apply Z.pow_lt_mono_r; lia.
Qed.

(** C7. On every record whose SYN flag is not set, [SYNOptions] returns
    MSS 0 and window scale 0, whatever the option list holds. *)
Theorem SYNOptions_not_SYN (pckt : tcp.Packet) (t : layers.TCP) :
  tcp.TCP pckt = Some t ->
  layers.SYN t = false ->
  tcp.SYNOptions pckt = Returns (0, 0).
Proof.
  intros Ht Hsyn. unfold tcp.SYNOptions. rewrite Ht. cbn [deref bind].
  rewrite Hsyn. reflexivity.
Qed.

Lemma SYNOptions_not_SYN_witness :
  tcp.SYNOptions sample.ack_with_options = Returns (0, 0).
Proof.
  exact (SYNOptions_not_SYN sample.ack_with_options _ eq_refl eq_refl).
Defined.

(** C8 (as amended). On every SYN record whose MSS options carry at least
    two data bytes and whose Window-Scale options of nonzero declared length
    carry at least one, [SYNOptions] returns: as MSS, the big-endian 16-bit
    value of the first two data bytes of the last MSS option; as window
    scale, 2^n modulo 2^16, [n] being the first data byte of the last
    Window-Scale option of nonzero declared length, which is 2^n when
    n < 16; and 0 for a kind that does not occur. Options of other kinds
    and Window-Scale options of declared length 0 change nothing. *)
Theorem SYNOptions_last_wins (pckt : tcp.Packet) (t : layers.TCP) :
  tcp.TCP pckt = Some t ->
  layers.SYN t = true ->
  forallb spec.carries_its_data (layers.Options t) = true ->
  tcp.SYNOptions pckt
  = Returns (spec.mss (layers.Options t), spec.windowscale (layers.Options t)) /\
  ((forall o,
      spec.last_matching spec.is_WindowScale (layers.Options t) = Some o ->
      spec.exponent (layers.OptionData o) < 16) ->
   spec.windowscale (layers.Options t) = spec.windowscale_stated (layers.Options t)).
Proof.
  intros Ht Hsyn Hall. split.
  - unfold tcp.SYNOptions. rewrite Ht. cbn [deref bind]. rewrite Hsyn.
    cbn [negb]. apply (SYNOptions_range_last _ 0 0 Hall).
  - apply windowscale_below_16.
Qed.

(** MSS bytes 0x05 0xB4 give 1460, the Window-Scale byte 0x07 gives 128;
    both are the last of their kind among seven options. *)
Lemma SYNOptions_last_wins_witness :
  tcp.SYNOptions sample.syn_mss_1460_scale_7 = Returns (1460, 2 ^ 7).
Proof.
  exact (proj1 (SYNOptions_last_wins sample.syn_mss_1460_scale_7 _
                  eq_refl eq_refl eq_refl)).
Defined.

(** C8, counterexample. A SYN record with the one option Window-Scale,
    data byte 0x10: 2^16 is stated, 0 is returned. *)
Lemma SYNOptions_scale_16_is_0 :
  exists t,
    tcp.TCP sample.syn_scale_16 = Some t /\
    layers.SYN t = true /\
    spec.windowscale_stated (layers.Options t) = 2 ^ 16 /\
    tcp.SYNOptions sample.syn_scale_16 = Returns (0, 0) /\
    tcp.SYNOptions sample.syn_scale_16
    <> Returns (spec.mss (layers.Options t),
                spec.windowscale_stated (layers.Options t)).
Proof.
  eexists. split; [ reflexivity | ]. split; [ reflexivity | ].
  split; [ reflexivity | ]. split; [ reflexivity | ].
  vm_compute. discriminate.
Qed.

(** C9, the code at the failing inputs. On a SYN record, an MSS option
    with no data byte (declared length 2, or cut off with declared length
    0) or with one data byte, and a Window-Scale option of declared length
    2 with no data byte, each make [SYNOptions] panic with an index out of
    range. *)
Theorem SYNOptions_panics :
  tcp.SYNOptions sample.syn_mss_no_data = Panics IndexOutOfRange /\
  tcp.SYNOptions sample.syn_mss_cut_off = Panics IndexOutOfRange /\
  tcp.SYNOptions sample.syn_mss_one_byte = Panics IndexOutOfRange /\
  tcp.SYNOptions sample.syn_scale_no_data = Panics IndexOutOfRange.
Proof. repeat split. Qed.

(* ================================================================== *)
(** ** The rest of the record *)

(** X1. The timestamp of the record, for every frame, accepted or not: the
    decoder's when it is not the zero time, and otherwise what [time.Now()]
    answers; so it is the zero time only if the clock answers it. *)
Theorem ParsePacket_Timestamp (now : time.Time) (packet : gopacket.Packet.t) :
  exists pckt,
    tcp.ParsePacket now packet = Returns (pckt, spec.reported_error packet) /\
    (gopacket.Packet.Metadata_Timestamp packet <> time.zero ->
     tcp.Timestamp pckt = gopacket.Packet.Metadata_Timestamp packet) /\
    (gopacket.Packet.Metadata_Timestamp packet = time.zero ->
     tcp.Timestamp pckt = now) /\
    (now <> time.zero -> tcp.Timestamp pckt <> time.zero).
Proof.
  assert (exists pckt,
             tcp.ParsePacket now packet = Returns (pckt, spec.reported_error packet) /\
             tcp.Timestamp pckt = spec.timestamp now packet) as (pckt & HP & HT).
  { destruct (spec.recognised packet) eqn:E.
    - destruct (recognised_layers packet E) as (n & t & Hn & Hip & Ht).
      eexists. split; [ apply (ParsePacket_recognised now packet n t Hn Hip Ht) | ].
      reflexivity.
    - eexists. split; [ apply (ParsePacket_skipped now packet E) | reflexivity ]. }
  exists pckt. split; [ exact HP | ].
  rewrite HT. unfold spec.timestamp, time.zero.
  destruct (Z.eqb_spec (gopacket.Packet.Metadata_Timestamp packet) 0) as [Hz | Hnz].
  - repeat split; intros; congruence.
  - repeat split; intros; congruence.
Qed.

Lemma ParsePacket_Timestamp_witness :
  exists pckt,
    tcp.ParsePacket 1 sample.not_ip = Returns (pckt, None) /\
    tcp.Timestamp pckt = 1700000000.
Proof.
  destruct (ParsePacket_Timestamp 1 sample.not_ip) as (pckt & HP & Hkept & _).
  exists pckt. split; [ exact HP | ].
  apply Hkept. discriminate.
Defined.

(** X2. What [ParsePacket] hands over untouched. For every frame the
    record's link layer is the frame's. For an accepted frame the record's
    network layer and application layer are the frame's, and its TCP layer
    is the frame's in every field but [DataOffset]. *)
Theorem ParsePacket_layers (now : time.Time) (packet : gopacket.Packet.t) :
  exists pckt,
    tcp.ParsePacket now packet = Returns (pckt, spec.reported_error packet) /\
    tcp.LinkLayer pckt = gopacket.Packet.LinkLayer packet /\
    (spec.recognised packet = true ->
     tcp.NetworkLayer pckt = gopacket.Packet.NetworkLayer packet /\
     tcp.DataLayer pckt = gopacket.Packet.ApplicationLayer packet /\
     exists t t',
       gopacket.Packet.TransportLayer packet = Some (gopacket.TCP t) /\
       tcp.TCP pckt = Some t' /\
       shape.same_but_DataOffset t t').
Proof.
  destruct (spec.recognised packet) eqn:E.
  - destruct (recognised_layers packet E) as (n & t & Hn & Hip & Ht).
    exists (spec.populated now packet n t).
    split; [ apply (ParsePacket_recognised now packet n t Hn Hip Ht) | ].
    split; [ reflexivity | ]. intros _.
    split; [ symmetry; exact Hn | ]. split; [ reflexivity | ].
    exists t, (layers.DataOffset_times_4 t).
    split; [ exact Ht | ]. split; [ reflexivity | ].
    unfold shape.same_but_DataOffset. cbn. repeat split.
  - exists (spec.skipped now packet).
    split; [ apply (ParsePacket_skipped now packet E) | ].
    split; [ reflexivity | discriminate ].
Qed.

Lemma ParsePacket_layers_witness :
  exists pckt,
    tcp.ParsePacket 1 sample.truncated_capture = Returns (pckt, None) /\
    tcp.NetworkLayer pckt = Some (sample.ipv4 5 60) /\
    tcp.DataLayer pckt = Some (repeat x61 15).
Proof.
  destruct (ParsePacket_layers 1 sample.truncated_capture)
    as (pckt & HP & _ & Hrest).
  destruct (Hrest eq_refl) as (Hn & Hd & _).
  exists pckt. split; [ exact HP | ]. split; assumption.
Defined.

(** X3. What [ParsePacket] does to the frame it is given. A frame that is
    not accepted is left as it was. Of an accepted frame only the TCP layer
    changes, and of that layer only [DataOffset], which is multiplied by 4
    in [uint8]. *)
Theorem ParsePacket_frame_effect (now : time.Time) (packet : gopacket.Packet.t) :
  exists packet',
    tcp.ParsePacket_frame now packet = Returns packet' /\
    shape.same_but_TransportLayer packet packet' /\
    (spec.recognised packet = false -> packet' = packet) /\
    (spec.recognised packet = true ->
     exists t t',
       gopacket.Packet.TransportLayer packet = Some (gopacket.TCP t) /\
       gopacket.Packet.TransportLayer packet' = Some (gopacket.TCP t') /\
       layers.DataOffset t' = layers.DataOffset t * 4 mod 2 ^ 8 /\
       shape.same_but_DataOffset t t').
Proof.
  unfold tcp.ParsePacket_frame.
  destruct (spec.recognised packet) eqn:E.
  - destruct (recognised_layers packet E) as (n & t & Hn & Hip & Ht).
    rewrite (ParsePacket_body_recognised now packet n t Hn Hip Ht).
    cbn [bind fst]. eexists. split; [ reflexivity | ].
    split; [ unfold shape.same_but_TransportLayer; cbn; repeat split | ].
    split; [ discriminate | ]. intros _.
    exists t, (layers.DataOffset_times_4 t).
    split; [ exact Ht | ]. split; [ reflexivity | ]. split; [ reflexivity | ].
    unfold shape.same_but_DataOffset. cbn. repeat split.
  - rewrite (ParsePacket_body_skipped now packet E).
    cbn [bind fst]. exists packet. split; [ reflexivity | ].
    split; [ unfold shape.same_but_TransportLayer; repeat split | ].
    split; [ reflexivity | discriminate ].
Qed.

Lemma ParsePacket_frame_effect_witness :
  exists packet' t',
    tcp.ParsePacket_frame 1 sample.truncated_capture = Returns packet' /\
    gopacket.Packet.TransportLayer packet' = Some (gopacket.TCP t') /\
    layers.DataOffset t' = 20.
Proof.
  destruct (ParsePacket_frame_effect 1 sample.truncated_capture)
    as (packet' & HP & _ & _ & Hrec).
  destruct (Hrec eq_refl) as (t & t' & Ht & Ht' & Hoff & _).
  exists packet', t'. split; [ exact HP | ]. split; [ exact Ht' | ].
  injection Ht as <-. rewrite Hoff. reflexivity.
Defined.

Lemma ParsePacket_again_witness :
  exists packet' pckt' t',
    tcp.ParsePacket_frame 1 sample.truncated_capture = Returns packet' /\
    tcp.ParsePacket 1 packet' = Returns (pckt', None) /\
    tcp.TCP pckt' = Some t' /\
    layers.DataOffset t' = 80.
Proof.
  exact (ParsePacket_again 1 sample.truncated_capture
           (sample.header 5 false true [] (repeat x61 15)) eq_refl eq_refl).
Defined.

(* ================================================================== *)
(** ** The accessors on the records of ParsePacket *)

(** X5. [SrcIP], [DestIP] and [Length] on the record [ParsePacket] returns:
    when the frame's network layer is IPv4 or IPv6, whatever it carries,
    they return that layer's source address, destination address and
    declared length; for any other frame each of them panics on its
    unchecked type assertion. *)
Theorem ParsePacket_addresses (now : time.Time) (packet : gopacket.Packet.t) :
  exists pckt,
    tcp.ParsePacket now packet = Returns (pckt, spec.reported_error packet) /\
    match gopacket.Packet.NetworkLayer packet with
    | Some (gopacket.IPv4 l) =>
        tcp.SrcIP pckt = Returns (layers.IPv4_SrcIP l) /\
        tcp.DestIP pckt = Returns (layers.IPv4_DstIP l) /\
        tcp.Length pckt = Returns (layers.IPv4_Length l)
    | Some (gopacket.IPv6 l) =>
        tcp.SrcIP pckt = Returns (layers.IPv6_SrcIP l) /\
        tcp.DestIP pckt = Returns (layers.IPv6_DstIP l) /\
        tcp.Length pckt = Returns (layers.IPv6_Length l)
    | _ =>
        tcp.SrcIP pckt = Panics InterfaceConversion /\
        tcp.DestIP pckt = Panics InterfaceConversion /\
        tcp.Length pckt = Panics InterfaceConversion
    end.
Proof.
  destruct (spec.recognised packet) eqn:E.
  - destruct (recognised_layers packet E) as (n & t & Hn & Hip & Ht).
    exists (spec.populated now packet n t).
    split; [ apply (ParsePacket_recognised now packet n t Hn Hip Ht) | ].
    rewrite Hn.
    destruct n as [l | l | c]; [ | | discriminate Hip ]; repeat split.
  - exists (spec.skipped now packet).
    split; [ apply (ParsePacket_skipped now packet E) | ].
    unfold tcp.SrcIP, tcp.DestIP, tcp.Length, tcp.Version, spec.skipped.
    cbn [tcp.NetworkLayer].
    destruct (gopacket.Packet.NetworkLayer packet) as [ [l | l | c] | ];
      repeat split.
Qed.

(** X6. [Flag] and [SYNOptions] on the record [ParsePacket] returns: for a
    frame that is not accepted both panic on the nil TCP pointer, also when
    [ParsePacket] returned no error; for an accepted frame [Flag] returns. *)
Theorem ParsePacket_then_Flag (now : time.Time) (packet : gopacket.Packet.t) :
  exists pckt,
    tcp.ParsePacket now packet = Returns (pckt, spec.reported_error packet) /\
    (spec.recognised packet = false ->
     tcp.Flag pckt = Panics NilDereference /\
     tcp.SYNOptions pckt = Panics NilDereference) /\
    (spec.recognised packet = true -> exists flag, tcp.Flag pckt = Returns flag).
Proof.
  destruct (spec.recognised packet) eqn:E.
  - destruct (recognised_layers packet E) as (n & t & Hn & Hip & Ht).
    exists (spec.populated now packet n t).
    split; [ apply (ParsePacket_recognised now packet n t Hn Hip Ht) | ].
    split; [ discriminate | ]. intros _.
    unfold tcp.Flag, spec.populated. cbn [tcp.TCP deref bind].
    match goal with
    | |- context [ if ?c then _ else _ ] =>
        match c with negb _ => destruct c end
    end; eexists; reflexivity.
  - exists (spec.skipped now packet).
    split; [ apply (ParsePacket_skipped now packet E) | ].
    split; [ | discriminate ].
    intros _. split; reflexivity.
Qed.

Lemma ParsePacket_then_Flag_witness :
  exists pckt,
    tcp.ParsePacket 1 sample.ipv4_not_tcp = Returns (pckt, None) /\
    tcp.Flag pckt = Panics NilDereference /\
    tcp.SYNOptions pckt = Panics NilDereference.
Proof.
  destruct (ParsePacket_then_Flag 1 sample.ipv4_not_tcp) as (pckt & HP & Hskip & _).
  exists pckt. split; [ exact HP | ]. apply Hskip. reflexivity.
Defined.

(** X7. [IHL] never panics and answers a multiple of 4 in the range of a
    byte: 40 whenever [Version] answers 6 (so also for a nil network layer),
    and 4 times the IHL field of an IPv4 layer whenever that field is below
    64, as every 4-bit field is. *)
Theorem IHL_bytes (pckt : tcp.Packet) :
  0 <= tcp.IHL pckt < 256 /\
  tcp.IHL pckt mod 4 = 0 /\
  (tcp.Version pckt = 6 -> tcp.IHL pckt = 40) /\
  (forall l,
     tcp.NetworkLayer pckt = Some (gopacket.IPv4 l) ->
     0 <= layers.IPv4_IHL l < 64 ->
     tcp.Version pckt = 4 /\ tcp.IHL pckt = 4 * layers.IPv4_IHL l).
Proof.
  unfold tcp.IHL, tcp.Version.
  destruct (tcp.NetworkLayer pckt) as [ [l | l | c] | ].
  - split; [ apply uint8_range | ].
    split; [ apply uint8_times_4_divisible | ].
    split; [ discriminate | ].
    intros l' Hl' Hrange. injection Hl' as <-.
    split; [ reflexivity | ]. rewrite uint8_small by lia. lia.
  - repeat split; try lia; try reflexivity; discriminate.
  - repeat split; try lia; try reflexivity; discriminate.
  - repeat split; try lia; try reflexivity; discriminate.
Qed.

Lemma IHL_bytes_witness :
  tcp.Version sample.syn_ack = 4 /\ tcp.IHL sample.syn_ack = 4 * 5.
Proof.
  destruct (IHL_bytes sample.syn_ack) as (_ & _ & _ & Hv4).
  apply (Hv4 _ eq_refl). vm_compute. split; [ discriminate | reflexivity ].
Defined.

(* ================================================================== *)
(** ** Flag, read back *)

(** [Flag] on a record with a TCP layer returns, and the names in the
    string are those of the set flags. *)
Lemma Flag_names_the_flags (pckt : tcp.Packet) (t : layers.TCP) :
  tcp.TCP pckt = Some t ->
  exists flag, tcp.Flag pckt = Returns flag /\ shape.read_flags flag = shape.flags t.
Proof.
  intros Ht. unfold tcp.Flag, shape.flags. rewrite Ht. cbn [deref bind].
  destruct (layers.FIN t), (layers.SYN t), (layers.RST t), (layers.PSH t),
    (layers.ACK t), (layers.URG t);
    eexists; split; reflexivity.
Qed.

(** X8. The string [Flag] returns can be read back: looking up each of the
    six names in it gives the six flags. So the string determines the
    flags: two records with the same [Flag] have the same FIN, SYN, RST,
    PSH, ACK and URG. *)
Theorem Flag_read_back (pckt : tcp.Packet) (t : layers.TCP) :
  tcp.TCP pckt = Some t ->
  (exists flag,
      tcp.Flag pckt = Returns flag /\ shape.read_flags flag = shape.flags t) /\
  (forall pckt' t',
      tcp.TCP pckt' = Some t' ->
      tcp.Flag pckt = tcp.Flag pckt' ->
      shape.flags t = shape.flags t').
Proof.
  intros Ht. split; [ apply Flag_names_the_flags; exact Ht | ].
  intros pckt' t' Ht' Hsame.
  destruct (Flag_names_the_flags pckt t Ht) as (flag & Hflag & Hread).
  destruct (Flag_names_the_flags pckt' t' Ht') as (flag' & Hflag' & Hread').
  rewrite Hflag, Hflag' in Hsame. injection Hsame as <-.
  rewrite <- Hread, <- Hread'. reflexivity.
Qed.

Lemma Flag_read_back_witness :
  exists flag,
    tcp.Flag sample.syn_ack = Returns flag /\
    shape.read_flags flag = [false; true; false; false; true; false].
Proof.
  exact (proj1 (Flag_read_back sample.syn_ack _ eq_refl)).
Defined.

(* ================================================================== *)
(** ** SYNOptions on any option list *)

Section OptionLists.

(** An option that does not carry its data stops the loop, whatever the
    named results hold. *)
Lemma SYNOptions_iter_short (acc : Z * Z) (v : layers.TCPOption) :
  spec.carries_its_data v = false ->
  tcp.SYNOptions_iter acc v = Panics IndexOutOfRange.
Proof.
  destruct acc as [mss windowscale].
  unfold spec.carries_its_data, spec.is_MSS, spec.is_WindowScale,
    tcp.SYNOptions_iter.
  destruct (layers.OptionType v =? layers.TCPOptionKindMSS).
  - intros H. apply Nat.leb_gt in H.
    rewrite (BigEndian_Uint16_short _ H). reflexivity.
  - destruct (layers.OptionType v =? layers.TCPOptionKindWindowScale);
      [ | discriminate ].
    destruct (0 <? layers.OptionLength v); cbn [andb]; [ | discriminate ].
    destruct (layers.OptionData v) as [ | n rest ]; [ reflexivity | discriminate ].
Qed.

(** An option the loop does not read leaves the named results alone. *)
Lemma SYNOptions_iter_not_read (acc : Z * Z) (v : layers.TCPOption) :
  shape.read_by_SYNOptions v = false ->
  tcp.SYNOptions_iter acc v = Returns acc.
Proof.
  destruct acc as [mss windowscale].
  unfold shape.read_by_SYNOptions, spec.is_MSS, spec.is_WindowScale,
    tcp.SYNOptions_iter.
  destruct (layers.OptionType v =? layers.TCPOptionKindMSS); [ discriminate | ].
  destruct (layers.OptionType v =? layers.TCPOptionKindWindowScale);
    [ | reflexivity ].
  destruct (0 <? layers.OptionLength v); [ discriminate | reflexivity ].
Qed.

Lemma SYNOptions_range_short (options : list layers.TCPOption) :
  (exists o, In o options /\ spec.carries_its_data o = false) ->
  forall acc, tcp.SYNOptions_range options acc = Panics IndexOutOfRange.
Proof.
  induction options as [ | v rest IH ]; intros (o & Hin & Ho) acc.
  - contradiction Hin.
  - cbn [tcp.SYNOptions_range].
    destruct (spec.carries_its_data v) eqn:Hv.
    + destruct acc as [mss windowscale].
      rewrite (SYNOptions_iter_carries mss windowscale v Hv). cbn [bind].
      apply IH. destruct Hin as [-> | Hin]; [ congruence | ].
      exists o. split; assumption.
    + rewrite (SYNOptions_iter_short acc v Hv). reflexivity.
Qed.

Lemma some_option_short (options : list layers.TCPOption) :
  forallb spec.carries_its_data options = false ->
  exists o, In o options /\ spec.carries_its_data o = false.
Proof.
  induction options as [ | v rest IH ]; cbn [forallb]; [ discriminate | ].
  destruct (spec.carries_its_data v) eqn:Hv; cbn [andb].
  - intros H. destruct (IH H) as (o & Hin & Ho).
    exists o. split; [ right; exact Hin | exact Ho ].
  - intros _. exists v. split; [ left; reflexivity | exact Hv ].
Qed.

(** Dropping the options the loop does not read changes nothing, a panic
    included. *)
Lemma SYNOptions_range_filter (options : list layers.TCPOption) :
  forall acc,
    tcp.SYNOptions_range (filter shape.read_by_SYNOptions options) acc
    = tcp.SYNOptions_range options acc.
Proof.
  induction options as [ | v rest IH ]; intros acc; [ reflexivity | ].
  cbn [filter tcp.SYNOptions_range].
  destruct (shape.read_by_SYNOptions v) eqn:Hv.
  - cbn [tcp.SYNOptions_range].
    destruct (tcp.SYNOptions_iter acc v) as [ acc' | p ]; cbn [bind];
      [ apply IH | reflexivity ].
  - rewrite (SYNOptions_iter_not_read acc v Hv). cbn [bind]. apply IH.
Qed.

(** Above 15 the power of two has no bit left in 16. *)
Lemma pow2_mod_2_16 (n : Z) : 16 <= n -> 2 ^ n mod 2 ^ 16 = 0.
Proof.
  intros Hn. replace n with ((n - 16) + 16) by lia.
  rewrite Z.pow_add_r by lia. apply Z_mod_mult.
Qed.

Lemma big_endian_16_range (data : list byte) :
  0 <= spec.big_endian_16 data < 65536.
Proof.
  unfold spec.big_endian_16.
  destruct data as [ | hi [ | lo rest ] ]; try lia.
  pose proof (byte_val_range hi). pose proof (byte_val_range lo). lia.
Qed.

Lemma exponent_range (data : list byte) : 0 <= spec.exponent data < 256.
Proof.
  unfold spec.exponent. destruct data as [ | n rest ];
    [ lia | apply byte_val_range ].
Qed.

End OptionLists.

(** X9. On a SYN record [SYNOptions] panics exactly when the list holds an
    option that is too short for what is read from it: an MSS option with
    fewer than two data bytes, or a Window-Scale option of nonzero declared
    length with no data byte; the panic is an index out of range. On any
    other SYN record it returns. *)
Theorem SYNOptions_panics_iff (pckt : tcp.Packet) (t : layers.TCP) :
  tcp.TCP pckt = Some t ->
  layers.SYN t = true ->
  ((exists o, In o (layers.Options t) /\ spec.carries_its_data o = false) ->
   tcp.SYNOptions pckt = Panics IndexOutOfRange) /\
  (~ (exists o, In o (layers.Options t) /\ spec.carries_its_data o = false) ->
   exists mss windowscale, tcp.SYNOptions pckt = Returns (mss, windowscale)) /\
  (forall p, tcp.SYNOptions pckt = Panics p ->
     p = IndexOutOfRange /\
     exists o, In o (layers.Options t) /\ spec.carries_its_data o = false).
Proof.
  intros Ht Hsyn. unfold tcp.SYNOptions. rewrite Ht. cbn [deref bind].
  rewrite Hsyn. cbn [negb].
  destruct (forallb spec.carries_its_data (layers.Options t)) eqn:Hall.
  - rewrite (SYNOptions_range_last _ 0 0 Hall).
    split; [ | split ].
    + intros (o & Hin & Ho).
      rewrite forallb_forall in Hall. rewrite (Hall o Hin) in Ho. discriminate Ho.
    + intros _. eexists. eexists. reflexivity.
    + intros p Hp. discriminate Hp.
  - pose proof (some_option_short _ Hall) as Hshort.
    rewrite (SYNOptions_range_short _ Hshort).
    split; [ | split ].
    + intros _. reflexivity.
    + intros Hnone. contradiction.
    + intros p Hp. injection Hp as <-. split; [ reflexivity | exact Hshort ].
Qed.

Lemma SYNOptions_panics_iff_witness :
  tcp.SYNOptions
    (sample.record
       (sample.header 32 true false
          [sample.opt 2 4 [x05; xb4]; sample.opt 1 1 []; sample.opt 3 2 []] []))
  = Panics IndexOutOfRange.
Proof.
  refine (proj1 (SYNOptions_panics_iff
                   (sample.record
                      (sample.header 32 true false
                         [sample.opt 2 4 [x05; xb4]; sample.opt 1 1 [];
                          sample.opt 3 2 []] []))
                   (sample.header 32 true false
                      [sample.opt 2 4 [x05; xb4]; sample.opt 1 1 [];
                       sample.opt 3 2 []] [])
                   eq_refl eq_refl) _).
  exists (sample.opt 3 2 []). split; [ | reflexivity ].
  right. right. left. reflexivity.
Defined.

(** X10. Whatever [SYNOptions] returns fits its results: the MSS is below
    2^16 and the window scale is 0 or one of the powers of two 1, 2, ...,
    32768. *)
Theorem SYNOptions_results (pckt : tcp.Packet) (mss windowscale : Z) :
  tcp.SYNOptions pckt = Returns (mss, windowscale) ->
  0 <= mss < 2 ^ 16 /\
  (windowscale = 0 \/ exists n, 0 <= n < 16 /\ windowscale = 2 ^ n).
Proof.
  unfold tcp.SYNOptions.
  destruct (tcp.TCP pckt) as [ t | ]; cbn [deref bind]; [ | discriminate ].
  destruct (layers.SYN t); cbn [negb].
  - destruct (forallb spec.carries_its_data (layers.Options t)) eqn:Hall.
    + rewrite (SYNOptions_range_last _ 0 0 Hall).
      intros H. injection H as <- <-. split.
      * destruct (spec.last_matching spec.is_MSS (layers.Options t));
          [ apply big_endian_16_range | change (2 ^ 16) with 65536; lia ].
      * destruct (spec.last_matching spec.is_WindowScale (layers.Options t))
          as [ o | ]; [ | left; reflexivity ].
        pose proof (exponent_range (layers.OptionData o)) as He.
        destruct (Z_lt_le_dec (spec.exponent (layers.OptionData o)) 16) as [Hlt | Hge].
        -- right. exists (spec.exponent (layers.OptionData o)).
           split; [ lia | ].
           apply Z.mod_small. split; [ apply Z.pow_nonneg; lia | ].
           apply (Z.pow_lt_mono_r 2 (spec.exponent (layers.OptionData o)) 16); lia.
        -- left. apply pow2_mod_2_16. exact Hge.
    + rewrite (SYNOptions_range_short _ (some_option_short _ Hall)). discriminate.
  - intros H. injection H as <- <-.
    split; [ change (2 ^ 16) with 65536; lia | left; reflexivity ].
Qed.

Lemma SYNOptions_results_witness :
  0 <= 1460 < 2 ^ 16 /\ (128 = 0 \/ exists n, 0 <= n < 16 /\ 128 = 2 ^ n).
Proof.
  exact (SYNOptions_results sample.syn_mss_1460_scale_7 1460 128 eq_refl).
Defined.

(** X11. [SYNOptions] depends on the SYN flag and on the MSS options and
    Window-Scale options of nonzero declared length, in their order, and on
    nothing else: two records that agree on these have the same outcome, a
    panic included. *)
Theorem SYNOptions_reads_only (pckt pckt' : tcp.Packet) (t t' : layers.TCP) :
  tcp.TCP pckt = Some t ->
  tcp.TCP pckt' = Some t' ->
  layers.SYN t = layers.SYN t' ->
  filter shape.read_by_SYNOptions (layers.Options t)
  = filter shape.read_by_SYNOptions (layers.Options t') ->
  tcp.SYNOptions pckt = tcp.SYNOptions pckt'.
Proof.
  intros Ht Ht' Hsyn Hread. unfold tcp.SYNOptions.
  rewrite Ht, Ht'. cbn [deref bind]. rewrite <- Hsyn.
  destruct (layers.SYN t); cbn [negb]; [ | reflexivity ].
  rewrite <- (SYNOptions_range_filter (layers.Options t)),
    <- (SYNOptions_range_filter (layers.Options t')), Hread.
  reflexivity.
Qed.

Lemma SYNOptions_reads_only_witness :
  tcp.SYNOptions sample.syn_mss_1460_scale_7
  = tcp.SYNOptions
      (sample.record
         (sample.header 20 true true
            [sample.opt 2 4 [x02; x18]; sample.opt 3 3 [x02];
             sample.opt 8 10 [x00; x00; x00; x01; x00; x00; x00; x00];
             sample.opt 2 4 [x05; xb4]; sample.opt 3 3 [x07]] [x61])).
Proof.
  eapply SYNOptions_reads_only; reflexivity.
Defined.
